(** * Traction: tenant manager and line-of-business routes

    A shallow embedding of
    - [plugins/traction_innkeeper/traction_innkeeper/v1_0/tenant_manager.py]
      (class [TenantManager]) and
    - [services/showcase/api/endpoints/routes/line_of_business.py]
      (the [request_degree] route),
    with the properties of the specification stated over it.

    Python [str] is a Rocq [string] (the text in its UTF-8 form, which is how
    Rocq stores string literals), Python [bytes] is a [list ascii].  The two
    are different types here as they are in Python: going from one to the
    other is [str_encode] / [bytes_decode]. *)

From Stdlib Require Import NArith ZArith Ascii String List Lia.
From stdpp Require Import base option list gmap strings.

Open Scope string_scope.
Open Scope list_scope.
Set Warnings "-register-all".

(** ** Python values *)

Definition str := string.
Definition bytes := list ascii.

(** The dynamically typed values that end up in record fields, in settings
    dictionaries and in JSON payloads. A [VDict] keeps Python's insertion
    order. *)
Inductive pyval :=
| VNone
| VBool (b : bool)
| VInt (z : Z)
| VStr (s : str)
| VBytes (b : bytes)
| VList (l : list pyval)
| VDict (d : list (str * pyval)).

(** [type(v).__name__] *)
Definition type_name (v : pyval) : string :=
  match v with
  | VNone => "NoneType"
  | VBool _ => "bool"
  | VInt _ => "int"
  | VStr _ => "str"
  | VBytes _ => "bytes"
  | VList _ => "list"
  | VDict _ => "dict"
  end.

(** [d[k]] / [d.get(k)] on a dictionary literal: the first entry under [k]. *)
Fixpoint dict_get (k : str) (d : list (str * pyval)) : option pyval :=
  match d with
  | [] => None
  | (k', v) :: d' => if String.eqb k k' then Some v else dict_get k d'
  end.

(** ** Exceptions *)

(** The error classes of the agent framework (aries_cloudagent): all of them
    derive from its [BaseError]. *)
Inductive aca_error_class :=
| BaseError_class
| StorageError
| StorageNotFoundError
| StorageDuplicateError
| BaseModelError
| MultitenantManagerError
| WalletKeyMissingError.

(** An instance of [BaseError] or of one of its subclasses. *)
Record BaseError := mkBaseError {
  err_class : aca_error_class;
  err_message : str;
}.

Inductive exn :=
| AcaPyError (e : BaseError)
| AttributeError (ty attr : string)
| UnboundLocalError (var : string)
| KeyError (key : string)
| TypeError (msg : string)
| ValueError (msg : string)
| UnicodeDecodeError.

(** An error of the agent framework, where an exception is expected. *)
Coercion AcaPyError : BaseError >-> exn.

(** [isinstance(e, StorageError)] *)
Definition is_StorageError (c : aca_error_class) : bool :=
  match c with
  | StorageError | StorageNotFoundError | StorageDuplicateError => true
  | _ => false
  end.

(** [isinstance(e, BaseModelError)] *)
Definition is_BaseModelError (c : aca_error_class) : bool :=
  match c with
  | BaseModelError => true
  | _ => false
  end.

Inductive Result (A : Type) :=
| Ok (a : A)
| Raise (e : exn).
Arguments Ok {A} a.
Arguments Raise {A} e.

Definition is_Ok {A} (r : Result A) : Prop := exists a, r = Ok a.

(** ** UTF-8 *)

(** A continuation byte, 10xxxxxx. *)
Definition is_cont (n : N) : bool := ((0x80 <=? n) && (n <=? 0xBF))%N.

Definition in_range (lo hi n : N) : bool := ((lo <=? n) && (n <=? hi))%N.

(** Strict UTF-8 well-formedness (no overlong forms, no surrogates, nothing
    above U+10FFFF): what [bytes.decode("utf-8")] accepts. *)
Fixpoint utf8_valid (b : bytes) : bool :=
  match b with
  | [] => true
  | b0 :: r0 =>
    let n0 := N_of_ascii b0 in
    if (n0 <? 0x80)%N then utf8_valid r0
    else if (n0 <? 0xC2)%N then false
    else
      match r0 with
      | [] => false
      | b1 :: r1 =>
        let n1 := N_of_ascii b1 in
        if (n0 <? 0xE0)%N then is_cont n1 && utf8_valid r1
        else
          match r1 with
          | [] => false
          | b2 :: r2 =>
            let n2 := N_of_ascii b2 in
            if (n0 <? 0xF0)%N then
              (if (n0 =? 0xE0)%N then in_range 0xA0 0xBF n1
               else if (n0 =? 0xED)%N then in_range 0x80 0x9F n1
               else is_cont n1)
              && is_cont n2 && utf8_valid r2
            else
              match r2 with
              | [] => false
              | b3 :: r3 =>
                let n3 := N_of_ascii b3 in
                if (n0 <? 0xF5)%N then
                  (if (n0 =? 0xF0)%N then in_range 0x90 0xBF n1
                   else if (n0 =? 0xF4)%N then in_range 0x80 0x8F n1
                   else is_cont n1)
                  && is_cont n2 && is_cont n3 && utf8_valid r3
                else false
              end
          end
      end
  end.

(** [s.encode("utf-8")] *)
Definition str_encode (s : str) : bytes := list_ascii_of_string s.

(** [b.decode("utf-8")] *)
Definition bytes_decode (b : bytes) : Result str :=
  if utf8_valid b then Ok (string_of_list_ascii b) else Raise UnicodeDecodeError.

(** [v.encode("utf-8")] on a value whose type is only known at run time:
    only [str] has the method. *)
Definition py_encode (v : pyval) : Result bytes :=
  match v with
  | VStr s => Ok (str_encode s)
  | _ => Raise (AttributeError (type_name v) "encode")
  end.

Definition is_ascii_byte (c : ascii) : Prop := (N_of_ascii c < 0x80)%N.
Definition is_ascii (b : bytes) : Prop := Forall is_ascii_byte b.
Definition NUL : ascii := ascii_of_N 0.
Definition no_nul (b : bytes) : Prop := Forall (fun c => c <> NUL) b.

(** ** uuid *)

Definition hex_digit (n : N) : ascii :=
  if (n <? 10)%N then ascii_of_N (48 + n) else ascii_of_N (87 + n).

(** The [k] lowest hexadecimal digits of [n], most significant first:
    ['%0kx' % n] for [n < 16^k]. *)
Fixpoint hex_digits (k : nat) (n : N) : list ascii :=
  match k with
  | O => []
  | S k' => hex_digits k' (n / 16) ++ [hex_digit (n mod 16)]
  end.

(** [uuid.uuid4()]: 16 random bytes as an integer, with the variant bits set
    to RFC 4122 and the version to 4. *)
Definition uuid4_of (random128 : N) : N :=
  let i := (random128 mod 2 ^ 128)%N in
  let i := N.ldiff i (N.shiftl 0xC000 48) in
  let i := N.lor i (N.shiftl 0x8000 48) in
  let i := N.ldiff i (N.shiftl 0xF000 64) in
  N.lor i (N.shiftl 4 76).

Definition dash : ascii := "-"%char.

(** [str(u)]: 8-4-4-4-12 lower-case hexadecimal digits. *)
Definition uuid_str (u : N) : str :=
  let h := hex_digits 32 u in
  string_of_list_ascii
    (take 8 h ++ dash :: take 4 (drop 8 h) ++ dash :: take 4 (drop 12 h)
       ++ dash :: take 4 (drop 16 h) ++ dash :: drop 20 h).

(** ** bcrypt *)

Module bcrypt.

(** The password-hashing library, as the tenant manager uses it:
    [gensalt()] (default cost and prefix) turns 16 bytes of entropy into a
    salt, [hashpw(password, salt)] returns the salted hash or raises
    [ValueError]. *)
Record impl := {
  gensalt : N -> bytes;
  hashpw : bytes -> bytes -> Result bytes;
}.

Definition bytes_eqb (a b : bytes) : bool := bool_decide (a = b).

(** [bcrypt.checkpw(password, hashed_password)]: hash the password again with
    the stored hash in the place of the salt, and compare (in constant
    time) with the stored hash. *)
Definition checkpw (B : impl) (password hashed_password : bytes) : Result bool :=
  match hashpw B password hashed_password with
  | Ok ret => Ok (bytes_eqb ret hashed_password)
  | Raise e => Raise e
  end.

(** What the library promises: salts and hashes are printable ASCII, a fresh
    salt is accepted, and a hash carries its own salt and cost, so that it
    can stand in for the salt it was made with. *)
Record Laws (B : impl) : Prop := {
  gensalt_ascii : forall e, is_ascii (gensalt B e);
  hashpw_gensalt : forall e p, no_nul p -> is_Ok (hashpw B p (gensalt B e));
  hashpw_ascii : forall p s h, hashpw B p s = Ok h -> is_ascii h;
  hashpw_rehash : forall p s h, hashpw B p s = Ok h ->
                                forall q, hashpw B q h = hashpw B q s;
}.

End bcrypt.

(** ** Records and external services *)

(** Modelled from the spec: [ReservationRecord] (traction_innkeeper's
    [models], not part of the sources at hand) "holds reservation_token_salt
    and reservation_token_hash plus an expiry timestamp". The two token
    fields hold whatever Python value the caller stored. *)
Record ReservationRecord := {
  reservation_token_salt : pyval;
  reservation_token_hash : pyval;
  expires_at : Z;
}.

(** What a storage slot holds: a record that loads, or one that fails
    validation when loaded. *)
Inductive stored (A : Type) :=
| Valid (a : A)
| Malformed.
Arguments Valid {A} a.
Arguments Malformed {A}.

(** The agent's [WalletRecord]; [wallet_id] is its storage key. *)
Record WalletRecord := {
  wallet_id : str;
  wallet_name : str;
  wallet_key : str;
}.

Record WalletValue := {
  stored_wallet_name : str;
  stored_wallet_key : str;
}.

(** Modelled from the spec: [TenantRecord] (traction_innkeeper's [models])
    has "tenant_id (unique, optionally externally supplied), tenant_name,
    wallet_id". [tenant_id] is [None] until the record is saved without a
    supplied id. *)
Record TenantRecord := {
  tenant_id : option str;
  tenant_name : str;
  tenant_wallet_id : str;
  new_with_id : bool;
}.

Record TenantValue := {
  stored_tenant_name : str;
  stored_tenant_wallet_id : str;
}.

Inductive key_management_mode := MODE_MANAGED | MODE_UNMANAGED.

Abbreviation wallet_store := (gmap str (stored WalletValue)).
Abbreviation tenant_store := (gmap str (stored TenantValue)).

(** The multitenancy service: [create_wallet(settings, mode) -> WalletRecord]
    works on the agent's wallet storage, [create_auth_token(wallet, key) ->
    token]. Either call may raise: an error of the agent framework (a
    [BaseError]), or any other exception. *)
Record MultitenantManager := {
  mt_create_wallet : gmap str pyval -> key_management_mode -> wallet_store ->
                     exn + (WalletRecord * wallet_store);
  mt_create_auth_token : WalletRecord -> str -> exn + str;
}.

Record Profile := {
  context_settings : gmap str pyval;
  inject_BaseMultitenantManager : MultitenantManager;
}.

Record InnkeeperWalletConfig := {
  config_tenant_id : str;
  config_wallet_name : str;
  config_wallet_key : str;
  print_key : bool;
  print_token : bool;
}.

Record ReservationConfig := {
  expiry_minutes : Z;
}.

Record TractionInnkeeperConfig := {
  innkeeper_wallet : InnkeeperWalletConfig;
  reservation : ReservationConfig;
}.

(** ** The world a call runs in *)

Inductive log_level := DEBUG | INFO | ERROR.

Inductive logval :=
| LNone
| LStr (s : str)
| LBytes (b : bytes)
| LBool (b : bool)
| LTime (t : Z)
| LExn (e : exn).

(** An f-string: its source text, and the values of its replacement fields. *)
Record fstring := F {
  template : string;
  fields : list logval;
}.

(** One call of a logger method: the message and the further positional
    arguments. *)
Record LogRecord := {
  level : log_level;
  message : fstring;
  log_args : list logval;
}.

(** A call made to the multitenancy service, with what it answered. *)
Inductive mt_call :=
| CreateWallet (settings : gmap str pyval) (mode : key_management_mode)
               (answer : exn + WalletRecord)
| CreateAuthToken (wallet : WalletRecord) (key : str) (answer : exn + str).

Record World := {
  os_urandom : nat -> N;        (* the entropy source, draw by draw *)
  drawn : nat;                  (* draws made so far *)
  utcnow : Z;                   (* the clock, in microseconds *)
  log : list LogRecord;
  stdout : list fstring;
  wallets : wallet_store;
  tenants : tenant_store;
  mt_calls : list mt_call;
}.

Definition set_drawn (n : nat) (w : World) : World :=
  {| os_urandom := os_urandom w; drawn := n; utcnow := utcnow w; log := log w;
     stdout := stdout w; wallets := wallets w; tenants := tenants w;
     mt_calls := mt_calls w |}.

Definition set_log (l : list LogRecord) (w : World) : World :=
  {| os_urandom := os_urandom w; drawn := drawn w; utcnow := utcnow w; log := l;
     stdout := stdout w; wallets := wallets w; tenants := tenants w;
     mt_calls := mt_calls w |}.

Definition set_stdout (o : list fstring) (w : World) : World :=
  {| os_urandom := os_urandom w; drawn := drawn w; utcnow := utcnow w; log := log w;
     stdout := o; wallets := wallets w; tenants := tenants w;
     mt_calls := mt_calls w |}.

Definition set_wallets (s : wallet_store) (w : World) : World :=
  {| os_urandom := os_urandom w; drawn := drawn w; utcnow := utcnow w; log := log w;
     stdout := stdout w; wallets := s; tenants := tenants w;
     mt_calls := mt_calls w |}.

Definition set_tenants (s : tenant_store) (w : World) : World :=
  {| os_urandom := os_urandom w; drawn := drawn w; utcnow := utcnow w; log := log w;
     stdout := stdout w; wallets := wallets w; tenants := s;
     mt_calls := mt_calls w |}.

Definition set_mt_calls (c : list mt_call) (w : World) : World :=
  {| os_urandom := os_urandom w; drawn := drawn w; utcnow := utcnow w; log := log w;
     stdout := stdout w; wallets := wallets w; tenants := tenants w;
     mt_calls := c |}.

(** A computation that may raise, in a world it may change. What was logged,
    printed or stored before an exception stays. *)
Definition Py (A : Type) : Type := World -> Result A * World.

Definition ret {A} (a : A) : Py A := fun w => (Ok a, w).

Definition raise {A} (e : exn) : Py A := fun w => (Raise e, w).

Definition bind {A B} (m : Py A) (k : A -> Py B) : Py B :=
  fun w =>
    match m w with
    | (Ok a, w') => k a w'
    | (Raise e, w') => (Raise e, w')
    end.

Definition lift {A} (r : Result A) : Py A := fun w => (r, w).

Declare Scope py_scope.
Delimit Scope py_scope with py.
Notation "x <- m ;; k" := (bind m (fun x => k))
  (at level 100, m at next level, right associativity) : py_scope.
Notation "m ;; k" := (bind m (fun _ => k))
  (at level 100, right associativity) : py_scope.
Open Scope py_scope.

(** [try: body / except <classes> as err: handler err] *)
Definition try_except {A} (body : Py A) (classes : exn -> bool)
           (handler : exn -> Py A) : Py A :=
  fun w =>
    match body w with
    | (Raise e, w') => if classes e then handler e w' else (Raise e, w')
    | r => r
    end.

(** [except BaseError] *)
Definition except_BaseError (e : exn) : bool :=
  match e with AcaPyError _ => true | _ => false end.

(** [except (StorageError, BaseModelError)] *)
Definition except_StorageError_BaseModelError (e : exn) : bool :=
  match e with
  | AcaPyError b => is_StorageError (err_class b) || is_BaseModelError (err_class b)
  | _ => false
  end.

(** [except Exception] *)
Definition except_Exception (e : exn) : bool := true.

(** Reading a local variable that an assignment may not have reached. *)
Definition load_local {A} (name : string) (v : option A) : Py A :=
  match v with
  | Some a => ret a
  | None => raise (UnboundLocalError name)
  end.

Definition logger (lvl : log_level) (msg : fstring) (args : list logval) : Py unit :=
  fun w => (Ok tt, set_log (log w ++ [{| level := lvl; message := msg; log_args := args |}]) w).

Definition print (line : fstring) : Py unit :=
  fun w => (Ok tt, set_stdout (stdout w ++ [line]) w).

(** [os.urandom(16)], as an integer. *)
Definition urandom16 : Py N :=
  fun w => (Ok (os_urandom w (drawn w)), set_drawn (S (drawn w)) w).

(** [str(uuid.uuid4())] *)
Definition str_uuid4 : Py str :=
  r <- urandom16 ;; ret (uuid_str (uuid4_of r)).

(** [datetime.utcnow()] *)
Definition datetime_utcnow : Py Z := fun w => (Ok (utcnow w), w).

(** [timedelta(minutes=m)], in microseconds. *)
Definition timedelta_minutes (m : Z) : Z := (m * 60000000)%Z.

(** ** Storage *)

(** [WalletRecord.retrieve_by_id(session, wallet_id)] *)
Definition WalletRecord_retrieve_by_id (record_id : str) : Py WalletRecord :=
  fun w =>
    match wallets w !! record_id with
    | None =>
      (Raise (AcaPyError (mkBaseError StorageNotFoundError record_id)), w)
    | Some Malformed =>
      (Raise (AcaPyError (mkBaseError BaseModelError record_id)), w)
    | Some (Valid v) =>
      (Ok {| wallet_id := record_id;
             wallet_name := stored_wallet_name v;
             wallet_key := stored_wallet_key v |}, w)
    end.

(** [TenantRecord.retrieve_by_id(session, tenant_id)] *)
Definition TenantRecord_retrieve_by_id (record_id : str) : Py TenantRecord :=
  fun w =>
    match tenants w !! record_id with
    | None =>
      (Raise (AcaPyError (mkBaseError StorageNotFoundError record_id)), w)
    | Some Malformed =>
      (Raise (AcaPyError (mkBaseError BaseModelError record_id)), w)
    | Some (Valid v) =>
      (Ok {| tenant_id := Some record_id;
             tenant_name := stored_tenant_name v;
             tenant_wallet_id := stored_tenant_wallet_id v;
             new_with_id := false |}, w)
    end.

Definition tenant_value (t : TenantRecord) : TenantValue :=
  {| stored_tenant_name := tenant_name t;
     stored_tenant_wallet_id := tenant_wallet_id t |}.

(** [tenant.save(session, reason=...)]: a record with a supplied id
    ([new_with_id]) or with no id yet is added, under a fresh uuid in the
    second case, and adding under a taken id fails; a record that was loaded
    is updated in place. The record comes back with its id set. *)
Definition TenantRecord_save (t : TenantRecord) : Py TenantRecord :=
  match tenant_id t with
  | Some i =>
    if new_with_id t then
      fun w =>
        match tenants w !! i with
        | Some _ => (Raise (AcaPyError (mkBaseError StorageDuplicateError i)), w)
        | None => (Ok t, set_tenants (<[i := Valid (tenant_value t)]> (tenants w)) w)
        end
    else
      fun w =>
        match tenants w !! i with
        | Some _ => (Ok t, set_tenants (<[i := Valid (tenant_value t)]> (tenants w)) w)
        | None => (Raise (AcaPyError (mkBaseError StorageNotFoundError i)), w)
        end
  | None =>
    i <- str_uuid4 ;;
    fun w =>
      match tenants w !! i with
      | Some _ => (Raise (AcaPyError (mkBaseError StorageDuplicateError i)), w)
      | None =>
        let t' := {| tenant_id := Some i; tenant_name := tenant_name t;
                     tenant_wallet_id := tenant_wallet_id t;
                     new_with_id := new_with_id t |} in
        (Ok t', set_tenants (<[i := Valid (tenant_value t')]> (tenants w)) w)
      end
  end.

(** ** The multitenancy service, called *)

Definition answer_of {A B} (r : exn + (A * B)) : exn + A :=
  match r with
  | inl e => inl e
  | inr (a, _) => inr a
  end.

(** [await multitenant_mgr.create_wallet(settings, key_management_mode)] *)
Definition multitenant_create_wallet (mgr : MultitenantManager)
           (settings : gmap str pyval) (mode : key_management_mode) : Py WalletRecord :=
  fun w =>
    let r := mt_create_wallet mgr settings mode (wallets w) in
    let w := set_mt_calls (mt_calls w ++ [CreateWallet settings mode (answer_of r)]) w in
    match r with
    | inl e => (Raise e, w)
    | inr (wallet_record, ws) => (Ok wallet_record, set_wallets ws w)
    end.

(** [await multitenant_mgr.create_auth_token(wallet_record, wallet_key)] *)
Definition multitenant_create_auth_token (mgr : MultitenantManager)
           (wallet_record : WalletRecord) (key : str) : Py str :=
  fun w =>
    let r := mt_create_auth_token mgr wallet_record key in
    let w := set_mt_calls (mt_calls w ++ [CreateAuthToken wallet_record key r]) w in
    match r with
    | inl e => (Raise e, w)
    | inr token => (Ok token, w)
    end.

(** ** class TenantManager *)

Record TenantManager := {
  _profile : Profile;
  _config : TractionInnkeeperConfig;
}.

(** [if not x: x = str(uuid.uuid4())] for an optional string argument:
    [None] and the empty string are both false. *)
Definition or_uuid4 (x : option str) : Py str :=
  match x with
  | None | Some "" => str_uuid4
  | Some s => ret s
  end.

(** [self._profile.context.settings[key]]: the subscript of a key that is
    not configured raises [KeyError]. *)
Definition profile_setting (self : TenantManager) (key : str) : Result pyval :=
  match context_settings (_profile self) !! key with
  | Some v => Ok v
  | None => Raise (KeyError key)
  end.

(** The settings dictionary of [create_wallet], once the subscript has
    given the wallet type: the five defaults,
    [settings.update(extra_settings)], then [settings["default_label"]]. *)
Definition wallet_settings (wallet_type : pyval) (wallet_name wallet_key : str)
           (extra_settings : gmap str pyval) : gmap str pyval :=
  let wallet_webhook_urls := VList [] in
  let wallet_dispatch_type := VStr "base" in
  let settings : gmap str pyval :=
    <["wallet.dispatch_type" := wallet_dispatch_type]>
      (<["wallet.webhook_urls" := wallet_webhook_urls]>
         (<["wallet.key" := VStr wallet_key]>
            (<["wallet.name" := VStr wallet_name]>
               (<["wallet.type" := wallet_type]> ∅)))) in
  let settings := extra_settings ∪ settings in
  let label := wallet_name in
  <["default_label" := VStr label]> settings.

Definition get_token (self : TenantManager) (wallet_record : WalletRecord) : Py str :=
  try_except
    (let multitenant_mgr := inject_BaseMultitenantManager (_profile self) in
     multitenant_create_auth_token multitenant_mgr wallet_record (wallet_key wallet_record))
    except_BaseError
    (fun err =>
       logger ERROR (F "Error getting token for wallet ('{wallet_record.wallet_name}')."
                       [LStr (wallet_name wallet_record)]) [LExn err] ;;
       raise err).

Definition create_tenant (self : TenantManager) (wallet_id' : str)
           (tenant_id' : option str) : Py TenantRecord :=
  try_except
    (wallet_record <- WalletRecord_retrieve_by_id wallet_id' ;;
     let tenant := {| tenant_id := tenant_id';
                      tenant_name := wallet_name wallet_record;
                      tenant_wallet_id := wallet_id wallet_record;
                      new_with_id := bool_decide (tenant_id' <> None) |} in
     TenantRecord_save tenant)
    except_Exception
    (fun err => logger ERROR (F "{}" [LExn err]) [] ;; raise err).

Definition create_wallet (self : TenantManager) (wallet_name' wallet_key' : option str)
           (extra_settings : gmap str pyval) (tenant_id' : option str)
  : Py (TenantRecord * WalletRecord * str) :=
  wallet_name <- or_uuid4 wallet_name' ;;
  wallet_key <- or_uuid4 wallet_key' ;;
  created <-
    try_except
      (let key_management_mode := MODE_MANAGED in
       wallet_type <- lift (profile_setting self "wallet.type") ;;
       let settings := wallet_settings wallet_type wallet_name wallet_key extra_settings in
       let multitenant_mgr := inject_BaseMultitenantManager (_profile self) in
       wallet_record <- multitenant_create_wallet multitenant_mgr settings key_management_mode ;;
       token <- get_token self wallet_record ;;
       ret (wallet_record, token))
      except_BaseError
      (fun err =>
         logger ERROR (F "Error creating wallet ('{wallet_name}')." [LStr wallet_name])
                [LExn err] ;;
         raise err) ;;
  let '(wallet_record, token) := created in
  (* ok, all is good, then create a tenant record *)
  tenant <- create_tenant self (wallet_id wallet_record) tenant_id' ;;
  ret (tenant, wallet_record, token).

Definition get_token_by_wallet_id (self : TenantManager) (wallet_id' : str) : Py str :=
  (* [token] is bound by the assignment in the try body and by nothing else *)
  token <-
    try_except
      (wallet_record <- WalletRecord_retrieve_by_id wallet_id' ;;
       token <- get_token self wallet_record ;;
       ret (Some token))
      except_StorageError_BaseModelError
      (fun _ =>
         logger INFO (F "Wallet not found with ID '{wallet_id}'" [LStr wallet_id']) [] ;;
         ret None) ;;
  load_local "token" token.

Definition lopt (o : option str) : logval :=
  match o with
  | Some s => LStr s
  | None => LNone
  end.

(** [create_innkeeper], first part: does innkeeper already exist?  Both
    locals start as [None]; an assignment made before the exception is
    kept. *)
Definition innkeeper_lookup (self : TenantManager)
  : Py (option TenantRecord * option WalletRecord) :=
  let tenant_id' := config_tenant_id (innkeeper_wallet (_config self)) in
  try_except
    (tenant_record <- TenantRecord_retrieve_by_id tenant_id' ;;
     try_except
       (wallet_record <- WalletRecord_retrieve_by_id (tenant_wallet_id tenant_record) ;;
        ret (Some tenant_record, Some wallet_record))
       except_StorageError_BaseModelError
       (fun _ =>
          logger INFO (F "Tenant not found with ID '{tenant_id}'" [LStr tenant_id']) [] ;;
          ret (Some tenant_record, None)))
    except_StorageError_BaseModelError
    (fun _ =>
       logger INFO (F "Tenant not found with ID '{tenant_id}'" [LStr tenant_id']) [] ;;
       ret (None, None)).

(** [create_innkeeper], last part: the printed report. *)
Definition innkeeper_report (config : InnkeeperWalletConfig)
           (tenant_record : TenantRecord) (wallet_record : WalletRecord) (token : str)
  : Py unit :=
  print (F "\ntenant.tenant_name = {tenant_record.tenant_name}"
           [LStr (tenant_name tenant_record)]) ;;
  print (F "tenant.tenant_id = {tenant_record.tenant_id}"
           [lopt (tenant_id tenant_record)]) ;;
  print (F "tenant.wallet_id = {tenant_record.wallet_id}"
           [LStr (tenant_wallet_id tenant_record)]) ;;
  print (F "wallet.wallet_name = {wallet_record.wallet_name}"
           [LStr (wallet_name wallet_record)]) ;;
  print (F "wallet.wallet_id = {wallet_record.wallet_id}"
           [LStr (wallet_id wallet_record)]) ;;
  let _key := if print_key config then wallet_key wallet_record else "********" in
  print (F "wallet.wallet_key = {_key}\n" [LStr _key]) ;;
  if print_token config then print (F "Bearer {token}\n" [LStr token]) else ret tt.

Definition create_innkeeper (self : TenantManager) : Py unit :=
  let config := innkeeper_wallet (_config self) in
  let tenant_id' := config_tenant_id config in
  let wallet_name' := config_wallet_name config in
  let wallet_key' := config_wallet_key config in
  found <- innkeeper_lookup self ;;
  result <-
    match found with
    | (Some tenant_record, Some wallet_record) =>
      (* if tenant_record and wallet_record: *)
      logger INFO (F "'{wallet_name}' wallet exists." [LStr wallet_name']) [] ;;
      token <- get_token self wallet_record ;;
      ret (tenant_record, wallet_record, token)
    | _ =>
      logger INFO (F "creating '{wallet_name}' wallet..." [LStr wallet_name']) [] ;;
      created <- create_wallet self (Some wallet_name') (Some wallet_key')
                               {["wallet.innkeeper" := VBool true]} (Some tenant_id') ;;
      logger INFO (F "...created '{wallet_name}' tenant and wallet." [LStr wallet_name']) [] ;;
      ret created
    end ;;
  let '(tenant_record, wallet_record, token) := result in
  innkeeper_report config tenant_record wallet_record token.

Section Reservation.

(** The imported [bcrypt] module. *)
Variable lib : bcrypt.impl.

Definition generate_reservation_token_data (self : TenantManager)
  : Py (str * bytes * bytes * Z) :=
  _pwd <- str_uuid4 ;;
  logger INFO (F "_pwd = {_pwd}" [LStr _pwd]) [] ;;
  e <- urandom16 ;;
  let _salt := bcrypt.gensalt lib e in
  logger INFO (F "_salt = {_salt}" [LBytes _salt]) [] ;;
  _hash <- lift (bcrypt.hashpw lib (str_encode _pwd) _salt) ;;
  logger INFO (F "_hash = {_hash}" [LBytes _hash]) [] ;;
  let minutes := expiry_minutes (reservation (_config self)) in
  now <- datetime_utcnow ;;
  let _expiry := (now + timedelta_minutes minutes)%Z in
  logger INFO (F "_expiry = {_expiry}" [LTime _expiry]) [] ;;
  ret (_pwd, _salt, _hash, _expiry).

Definition check_reservation_password (self : TenantManager) (reservation_pwd : str)
           (reservation : ReservationRecord) : Py (option str) :=
  (* make a hash from passed in value with saved salt... *)
  salt <- lift (py_encode (reservation_token_salt reservation)) ;;
  reservation_token <- lift (bcrypt.hashpw lib (str_encode reservation_pwd) salt) ;;
  (* check the passed in value/hash against the calculated hash. *)
  checkpw <- lift (bcrypt.checkpw lib (str_encode reservation_pwd) reservation_token) ;;
  logger DEBUG
    (F "bcrypt.checkpw(reservation_pwd.encode('utf-8'), reservation_token) = {checkpw}"
       [LBool checkpw]) [] ;;
  (* check the passed in value against the saved hash *)
  saved_hash <- lift (py_encode (reservation_token_hash reservation)) ;;
  checkpw2 <- lift (bcrypt.checkpw lib (str_encode reservation_pwd) saved_hash) ;;
  logger DEBUG
    (F "bcrypt.checkpw(reservation_pwd.encode('utf-8'), reservation.reservation_token_hash.encode('utf-8')) = {checkpw2}"
       [LBool checkpw2]) [] ;;
  if checkpw && checkpw2 then
    (* if password is correct, then return the string equivalent... *)
    token <- lift (bytes_decode reservation_token) ;;
    ret (Some token)
  else
    (* else return None *)
    ret None.

(** The verification the specification describes once the redundant
    self-check is dropped: only the comparison with the persisted hash. *)
Definition check_persisted_hash_only (self : TenantManager) (reservation_pwd : str)
           (reservation : ReservationRecord) : Py (option str) :=
  salt <- lift (py_encode (reservation_token_salt reservation)) ;;
  reservation_token <- lift (bcrypt.hashpw lib (str_encode reservation_pwd) salt) ;;
  saved_hash <- lift (py_encode (reservation_token_hash reservation)) ;;
  checkpw2 <- lift (bcrypt.checkpw lib (str_encode reservation_pwd) saved_hash) ;;
  if checkpw2 then
    token <- lift (bytes_decode reservation_token) ;;
    ret (Some token)
  else
    ret None.

End Reservation.

(** * Line-of-business routes *)

Module line_of_business.

(** The rows the route reads. Only the columns it uses are kept;
    [cred_def_id] is empty until the line of business is an issuer. *)
Record Applicant := {
  connection_id : N;
  alias : pyval;
}.

Record Lob := {
  wallet_id : N;
  wallet_key : N;
  cred_def_id : pyval;
}.

(** The repositories over the request's database session: each lookup
    returns the row or raises. *)
Record Repositories := {
  ApplicantRepository_get_by_id_in_sandbox : N -> N -> Result Applicant;
  LobRepository_get_by_id_with_sandbox : N -> N -> Result Lob;
  LobRepository_get_by_name_with_sandbox : N -> str -> Result Lob;
}.

(** A call of [traction.tenant_request_credential_presentation]. *)
Record presentation_request := {
  request_wallet_id : N;
  request_wallet_key : N;
  request_connection_id : str;
  request_alias : pyval;
  request_proof_req : pyval;
}.

(** The proof request literal of [request_degree]. *)
Definition proof_req_for (faber : Lob) : pyval :=
  VDict
    [ ("requested_attributes",
       VList
         [ VDict [ ("name", VStr "degree");
                   ("restrictions", VList [VDict [("cred_def_id", cred_def_id faber)]]) ];
           VDict [ ("name", VStr "date");
                   ("restrictions", VList [VDict [("cred_def_id", cred_def_id faber)]]) ] ]);
      ("requested_predicates",
       VList
         [ VDict [ ("name", VStr "age");
                   ("p_type", VStr ">");
                   ("p_value", VInt 18);
                   ("restrictions", VList [VDict [("cred_def_id", cred_def_id faber)]]) ] ]) ].

(** The route: its result, and the calls it made to the traction service. *)
Definition request_degree (repos : Repositories)
           (tenant_request_credential_presentation : presentation_request -> Result pyval)
           (sandbox_id lob_id applicant_id : N)
  : Result pyval * list presentation_request :=
  match ApplicantRepository_get_by_id_in_sandbox repos sandbox_id applicant_id with
  | Raise e => (Raise e, [])
  | Ok applicant =>
    match LobRepository_get_by_id_with_sandbox repos sandbox_id lob_id with
    | Raise e => (Raise e, [])
    | Ok acme =>
      (* going to get faber, so we can use their cred def id *)
      match LobRepository_get_by_name_with_sandbox repos sandbox_id "Faber" with
      | Raise e => (Raise e, [])
      | Ok faber =>
        let proof_req := proof_req_for faber in
        let call :=
          {| request_wallet_id := wallet_id acme;
             request_wallet_key := wallet_key acme;
             request_connection_id := uuid_str (connection_id applicant);
             request_alias := alias applicant;
             request_proof_req := proof_req |} in
        (tenant_request_credential_presentation call, [call])
      end
    end
  end.

(** Reading a proof request. *)
Definition item (key : str) (v : pyval) : option pyval :=
  match v with
  | VDict d => dict_get key d
  | _ => None
  end.

Definition items (key : str) (v : pyval) : list pyval :=
  match item key v with
  | Some (VList l) => l
  | _ => []
  end.

Definition restricted_to (cred_def : pyval) (entry : pyval) : Prop :=
  item "restrictions" entry = Some (VList [VDict [("cred_def_id", cred_def)]]).

Definition is_age_over_18 (predicate : pyval) : Prop :=
  item "name" predicate = Some (VStr "age") /\
  item "p_type" predicate = Some (VStr ">") /\
  item "p_value" predicate = Some (VInt 18).

(** Exactly two requested attributes, [degree] and [date], exactly one
    requested predicate, [age > 18], each restricted to [cred_def]. *)
Definition degree_proof_request (cred_def : pyval) (proof_req : pyval) : Prop :=
  length (items "requested_attributes" proof_req) = 2%nat /\
  map (item "name") (items "requested_attributes" proof_req)
  = [Some (VStr "degree"); Some (VStr "date")] /\
  length (items "requested_predicates" proof_req) = 1%nat /\
  Forall is_age_over_18 (items "requested_predicates" proof_req) /\
  Forall (restricted_to cred_def)
         (items "requested_attributes" proof_req ++ items "requested_predicates" proof_req).

End line_of_business.

(** ** The other routes *)

Module lob_routes.

(** The student row, with the columns [issue_degree] reads. *)
Record Student := {
  student_id : pyval;
  name : pyval;
  date : Z;
  degree : pyval;
  age : pyval;
  connection_id : N;
}.

(** What the routes take from Python itself: [str(v)] for the kinds of
    value whose text is not modelled here (numbers, bytes, containers), and
    [d.date().strftime(format)] for a datetime [d]. *)
Record Python := {
  str_other : pyval -> str;
  date_strftime : Z -> string -> str;
}.

(** [str(v)] *)
Definition py_str (py : Python) (v : pyval) : str :=
  match v with
  | VStr s => s
  | VNone => "None"
  | VBool true => "True"
  | VBool false => "False"
  | _ => str_other py v
  end.

(** The calls the routes make to the traction service. *)
Inductive traction_call :=
| tenant_get_credential_offers (wallet_id wallet_key : N)
| tenant_accept_credential_offer (wallet_id wallet_key cred_issue_id : N)
| tenant_reject_credential_offer (wallet_id wallet_key cred_issue_id : N)
| tenant_get_credentials (wallet_id wallet_key : N)
| tenant_issue_credential (wallet_id wallet_key : N) (connection_id : str)
                          (alias : str) (cred_def_id : str) (attributes : pyval).

(** The wallet a call is made for. *)
Definition call_wallet (c : traction_call) : N * N :=
  match c with
  | tenant_get_credential_offers i k
  | tenant_accept_credential_offer i k _
  | tenant_reject_credential_offer i k _
  | tenant_get_credentials i k
  | tenant_issue_credential i k _ _ _ _ => (i, k)
  end.

Section Routes.

Variable repos : line_of_business.Repositories.
Variable StudentRepository_get_by_id_in_sandbox : N -> N -> Result Student.
Variable traction : traction_call -> Result pyval.
Variable py : Python.

Definition get_credential_offer (sandbox_id lob_id : N)
  : Result pyval * list traction_call :=
  (* make sure lob is in this sandbox... *)
  match line_of_business.LobRepository_get_by_id_with_sandbox repos sandbox_id lob_id with
  | Raise e => (Raise e, [])
  | Ok lob =>
    (* go get all creds the lob holds *)
    let call := tenant_get_credential_offers (line_of_business.wallet_id lob)
                                             (line_of_business.wallet_key lob) in
    (traction call, [call])
  end.

Definition accept_credential_offer (sandbox_id lob_id cred_issue_id : N)
  : Result pyval * list traction_call :=
  match line_of_business.LobRepository_get_by_id_with_sandbox repos sandbox_id lob_id with
  | Raise e => (Raise e, [])
  | Ok lob =>
    let call := tenant_accept_credential_offer (line_of_business.wallet_id lob)
                                               (line_of_business.wallet_key lob)
                                               cred_issue_id in
    (traction call, [call])
  end.

Definition reject_credential_offer (sandbox_id lob_id cred_issue_id : N)
  : Result pyval * list traction_call :=
  match line_of_business.LobRepository_get_by_id_with_sandbox repos sandbox_id lob_id with
  | Raise e => (Raise e, [])
  | Ok lob =>
    let call := tenant_reject_credential_offer (line_of_business.wallet_id lob)
                                               (line_of_business.wallet_key lob)
                                               cred_issue_id in
    (traction call, [call])
  end.

Definition get_credentials (sandbox_id lob_id : N)
  : Result pyval * list traction_call :=
  match line_of_business.LobRepository_get_by_id_with_sandbox repos sandbox_id lob_id with
  | Raise e => (Raise e, [])
  | Ok lob =>
    let call := tenant_get_credentials (line_of_business.wallet_id lob)
                                       (line_of_business.wallet_key lob) in
    (traction call, [call])
  end.

(** The attribute list of [issue_degree]. *)
Definition degree_attrs (student : Student) : pyval :=
  VList
    [ VDict [("name", VStr "student_id"); ("value", student_id student)];
      VDict [("name", VStr "name"); ("value", name student)];
      VDict [("name", VStr "date");
             ("value", VStr (date_strftime py (date student) "%d-%m-%Y"))];
      VDict [("name", VStr "degree"); ("value", degree student)];
      VDict [("name", VStr "age"); ("value", age student)] ].

Definition issue_degree (sandbox_id lob_id student_id' : N)
  : Result pyval * list traction_call :=
  match StudentRepository_get_by_id_in_sandbox sandbox_id student_id' with
  | Raise e => (Raise e, [])
  | Ok student =>
    match line_of_business.LobRepository_get_by_id_with_sandbox repos sandbox_id lob_id with
    | Raise e => (Raise e, [])
    | Ok faber =>
      let attrs := degree_attrs student in
      let call :=
        tenant_issue_credential
          (line_of_business.wallet_id faber) (line_of_business.wallet_key faber)
          (uuid_str (connection_id student))
          "degree"
          (py_str py (line_of_business.cred_def_id faber))
          attrs in
      (traction call, [call])
    end
  end.

End Routes.

End lob_routes.

(** * Facts about the encoding layer *)

Lemma N_of_ascii_bound (c : ascii) : (N_of_ascii c < 256)%N.
Proof. destruct c as [[] [] [] [] [] [] [] []]; vm_compute; reflexivity. Qed.

Lemma N_of_ascii_inj (a b : ascii) : N_of_ascii a = N_of_ascii b -> a = b.
Proof.
  intros H. rewrite <- (ascii_N_embedding a), <- (ascii_N_embedding b). now rewrite H.
Qed.

Lemma utf8_valid_ascii (b : bytes) : is_ascii b -> utf8_valid b = true.
Proof.
  induction 1 as [|c l Hc _ IH]; [reflexivity|].
  cbn [utf8_valid]. unfold is_ascii_byte in Hc.
  apply N.ltb_lt in Hc. now rewrite Hc.
Qed.

Lemma bytes_decode_ascii (b : bytes) :
  is_ascii b -> bytes_decode b = Ok (string_of_list_ascii b).
Proof. intros H. unfold bytes_decode. now rewrite utf8_valid_ascii. Qed.

Lemma str_encode_of_bytes (b : bytes) : str_encode (string_of_list_ascii b) = b.
Proof. apply list_ascii_of_string_of_list_ascii. Qed.

Lemma str_encode_inj (s t : str) : str_encode s = str_encode t -> s = t.
Proof.
  unfold str_encode. intros H.
  rewrite <- (string_of_list_ascii_of_string s), <- (string_of_list_ascii_of_string t).
  now rewrite H.
Qed.

Lemma hex_digit_value (n : N) :
  (n < 16)%N ->
  N_of_ascii (hex_digit n) = if (n <? 10)%N then (48 + n)%N else (87 + n)%N.
Proof.
  intros H. unfold hex_digit.
  destruct (n <? 10)%N; apply N_ascii_embedding; lia.
Qed.

Lemma hex_digit_printable (n : N) :
  (n < 16)%N -> is_ascii_byte (hex_digit n) /\ hex_digit n <> NUL.
Proof.
  intros H. unfold is_ascii_byte. pose proof (hex_digit_value n H) as Hv. split.
  - rewrite Hv. destruct (n <? 10)%N eqn:E; [apply N.ltb_lt in E|]; lia.
  - intros Heq. rewrite Heq in Hv. change (N_of_ascii NUL) with 0%N in Hv.
    destruct (n <? 10)%N; lia.
Qed.

Lemma hex_digit_inj (m n : N) :
  (m < 16)%N -> (n < 16)%N -> hex_digit m = hex_digit n -> m = n.
Proof.
  intros Hm Hn Heq. apply (f_equal N_of_ascii) in Heq.
  rewrite !hex_digit_value in Heq by assumption.
  destruct (m <? 10)%N eqn:Em, (n <? 10)%N eqn:En;
    try apply N.ltb_lt in Em; try apply N.ltb_lt in En;
    try apply N.ltb_ge in Em; try apply N.ltb_ge in En; lia.
Qed.

Lemma hex_digits_length (k : nat) (n : N) : length (hex_digits k n) = k.
Proof.
  revert n. induction k as [|k IH]; intros n; [reflexivity|].
  cbn [hex_digits]. rewrite length_app, IH. cbn. lia.
Qed.

Lemma hex_digits_printable (k : nat) (n : N) :
  Forall (fun c => is_ascii_byte c /\ c <> NUL) (hex_digits k n).
Proof.
  revert n. induction k as [|k IH]; intros n; [constructor|].
  cbn [hex_digits]. apply Forall_app. split; [apply IH|].
  constructor; [|constructor].
  apply hex_digit_printable. apply N.mod_lt. discriminate.
Qed.


(** * A model of the bcrypt interface

    An instance of [bcrypt.impl] that keeps the shape of the library's
    strings (a 29-byte salt [$2b$12$] + 22 characters, a hash that starts
    with its salt) and replaces the cipher by a transparent digest. It shows
    that the laws above can be met, and gives the examples something to
    run. *)

Module bcrypt_model.

Definition prefix : bytes := list_ascii_of_string "$2b$12$".

Definition is_ascii_byteb (c : ascii) : bool := (N_of_ascii c <? 0x80)%N.

Definition salt_ok (s : bytes) : bool :=
  bool_decide (take 7 s = prefix) && (29 <=? length s)%nat
  && forallb is_ascii_byteb (take 29 s).

Definition digest (p : bytes) : bytes :=
  flat_map (fun c => [hex_digit (N_of_ascii c / 16); hex_digit (N_of_ascii c mod 16)]) p.

Definition gensalt (e : N) : bytes := prefix ++ hex_digits 22 e.

Definition hashpw (p s : bytes) : Result bytes :=
  if salt_ok s then Ok (take 29 s ++ digest p) else Raise (ValueError "Invalid salt").

Definition lib : bcrypt.impl := {| bcrypt.gensalt := gensalt; bcrypt.hashpw := hashpw |}.

Lemma forallb_is_ascii (b : bytes) : forallb is_ascii_byteb b = true <-> is_ascii b.
Proof.
  unfold is_ascii. rewrite forallb_forall, Forall_forall.
  split; intros H c Hc.
  - apply N.ltb_lt. apply H. now apply list_elem_of_In.
  - apply N.ltb_lt. apply H. now apply list_elem_of_In.
Qed.

Lemma digest_ascii (p : bytes) : is_ascii (digest p).
Proof.
  induction p as [|c p IH]; [constructor|].
  cbn [digest flat_map app]. pose proof (N_of_ascii_bound c) as Hc.
  constructor; [|constructor; [|exact IH]].
  - apply hex_digit_printable. apply N.Div0.div_lt_upper_bound. exact Hc.
  - apply hex_digit_printable. apply N.mod_lt. discriminate.
Qed.

Lemma digest_inj (p q : bytes) : digest p = digest q -> p = q.
Proof.
  revert q. induction p as [|c p IH]; intros [|d q] H; try discriminate; [reflexivity|].
  cbn [digest flat_map app] in H. injection H as H1 H2 H3.
  pose proof (N_of_ascii_bound c) as Hc. pose proof (N_of_ascii_bound d) as Hd.
  apply hex_digit_inj in H1;
    [|apply N.Div0.div_lt_upper_bound; assumption
     |apply N.Div0.div_lt_upper_bound; assumption].
  apply hex_digit_inj in H2; [|apply N.mod_lt; discriminate|apply N.mod_lt; discriminate].
  f_equal; [|apply IH; exact H3].
  apply N_of_ascii_inj.
  rewrite (N.div_mod (N_of_ascii c) 16), (N.div_mod (N_of_ascii d) 16) by discriminate.
  now rewrite H1, H2.
Qed.

Lemma gensalt_is_ascii (e : N) : is_ascii (gensalt e).
Proof.
  unfold gensalt, is_ascii. apply Forall_app. split.
  - apply forallb_is_ascii. reflexivity.
  - eapply Forall_impl; [apply hex_digits_printable|]. intros c [Hc _]. exact Hc.
Qed.

Lemma gensalt_ok (e : N) : salt_ok (gensalt e) = true.
Proof.
  unfold salt_ok.
  assert (Hlen : length (gensalt e) = 29%nat).
  { unfold gensalt. rewrite length_app, hex_digits_length. reflexivity. }
  rewrite (take_ge _ 29) by lia. rewrite Hlen.
  replace (forallb is_ascii_byteb (gensalt e)) with true
    by (symmetry; apply forallb_is_ascii, gensalt_is_ascii).
  rewrite bool_decide_eq_true_2; [reflexivity|].
  unfold gensalt. rewrite take_app_length'; reflexivity.
Qed.

Lemma salt_ok_take (s : bytes) (t : bytes) :
  salt_ok s = true -> salt_ok (take 29 s ++ t) = true.
Proof.
  unfold salt_ok. intros H.
  apply andb_prop in H as [H Hascii]. apply andb_prop in H as [Hpre Hlen].
  apply bool_decide_eq_true_1 in Hpre. apply Nat.leb_le in Hlen.
  assert (Hl : length (take 29 s) = 29%nat) by (rewrite length_take; lia).
  assert (Ht : take 29 (take 29 s ++ t) = take 29 s).
  { rewrite take_app_length'; [reflexivity|symmetry; exact Hl]. }
  rewrite Ht, Hascii.
  rewrite length_app, Hl.
  rewrite bool_decide_eq_true_2; [reflexivity|].
  rewrite take_app_le by lia. rewrite take_take. exact Hpre.
Qed.

Lemma laws : bcrypt.Laws lib.
Proof.
  split; cbn [bcrypt.gensalt bcrypt.hashpw lib].
  - apply gensalt_is_ascii.
  - intros e p _. unfold hashpw. rewrite gensalt_ok. eexists. reflexivity.
  - intros p s h. unfold hashpw. destruct (salt_ok s) eqn:E; [|discriminate].
    intros [= <-]. apply Forall_app. split; [|apply digest_ascii].
    apply andb_prop in E as [_ E]. now apply forallb_is_ascii.
  - intros p s h. unfold hashpw. destruct (salt_ok s) eqn:E; [|discriminate].
    intros [= <-] q. rewrite salt_ok_take by exact E.
    rewrite take_app_length'; [reflexivity|].
    apply andb_prop in E as [E _]. apply andb_prop in E as [_ E].
    apply Nat.leb_le in E. rewrite length_take. lia.
Qed.

End bcrypt_model.

(** * Reservation passwords *)

(** How a caller keeps the salt and hash of [generate_reservation_token_data]
    in a [ReservationRecord]: as they came (bytes), or decoded to the strings
    that [check_reservation_password] encodes again. *)
Definition store_raw (_salt _hash : bytes) (_expiry : Z) : ReservationRecord :=
  {| reservation_token_salt := VBytes _salt;
     reservation_token_hash := VBytes _hash;
     expires_at := _expiry |}.

Definition store_decoded (_salt _hash : bytes) (_expiry : Z) : Result ReservationRecord :=
  match bytes_decode _salt, bytes_decode _hash with
  | Ok salt_s, Ok hash_s =>
    Ok {| reservation_token_salt := VStr salt_s;
          reservation_token_hash := VStr hash_s;
          expires_at := _expiry |}
  | Raise e, _ => Raise e
  | _, Raise e => Raise e
  end.

Definition set_expires_at (t : Z) (r : ReservationRecord) : ReservationRecord :=
  {| reservation_token_salt := reservation_token_salt r;
     reservation_token_hash := reservation_token_hash r;
     expires_at := t |}.

Definition set_utcnow (t : Z) (w : World) : World :=
  {| os_urandom := os_urandom w; drawn := drawn w; utcnow := t; log := log w;
     stdout := stdout w; wallets := wallets w; tenants := tenants w;
     mt_calls := mt_calls w |}.

Arguments uuid_str : simpl never.
Arguments uuid4_of : simpl never.
Arguments str_encode : simpl never.
Arguments bytes_decode : simpl never.
Arguments timedelta_minutes : simpl never.

Ltac py_unfold :=
  unfold bind, lift, ret, raise, logger, print, urandom16, str_uuid4, datetime_utcnow,
         load_local, try_except in *.

Section ReservationFacts.

Variable lib : bcrypt.impl.
Hypothesis lib_laws : bcrypt.Laws lib.
Variable self : TenantManager.

(** A password always verifies against the hash just made from it. *)
Lemma checkpw_own_hash (p s h : bytes) :
  bcrypt.hashpw lib p s = Ok h -> bcrypt.checkpw lib p h = Ok true.
Proof.
  intros H. unfold bcrypt.checkpw.
  rewrite (bcrypt.hashpw_rehash lib lib_laws p s h H p), H.
  unfold bcrypt.bytes_eqb. now rewrite bool_decide_eq_true_2.
Qed.

(** Against a hash made under salt [s], verification is a comparison of
    hashes under [s]. *)
Lemma checkpw_other_hash (p q s h : bytes) :
  bcrypt.hashpw lib p s = Ok h ->
  bcrypt.checkpw lib q h =
  match bcrypt.hashpw lib q s with
  | Ok h' => Ok (bcrypt.bytes_eqb h' h)
  | Raise e => Raise e
  end.
Proof.
  intros H. unfold bcrypt.checkpw.
  now rewrite (bcrypt.hashpw_rehash lib lib_laws p s h H q).
Qed.

(** The outcome of the check on a record that holds strings. *)
Lemma check_on_strings (pwd salt_s hash_s : str) (exp : Z) (w : World) :
  fst (check_reservation_password lib self pwd
         {| reservation_token_salt := VStr salt_s;
            reservation_token_hash := VStr hash_s;
            expires_at := exp |} w) =
  match bcrypt.hashpw lib (str_encode pwd) (str_encode salt_s) with
  | Raise e => Raise e
  | Ok token =>
    match bcrypt.checkpw lib (str_encode pwd) (str_encode hash_s) with
    | Raise e => Raise e
    | Ok true =>
      match bytes_decode token with
      | Ok s => Ok (Some s)
      | Raise e => Raise e
      end
    | Ok false => Ok None
    end
  end.
Proof.
  unfold check_reservation_password. py_unfold. cbn.
  destruct (bcrypt.hashpw lib (str_encode pwd) (str_encode salt_s)) as [token|e] eqn:Ht;
    [|reflexivity].
  rewrite (checkpw_own_hash _ _ _ Ht). cbn.
  destruct (bcrypt.checkpw lib (str_encode pwd) (str_encode hash_s)) as [[|]|e];
    cbn; try reflexivity.
  destruct (bytes_decode token); reflexivity.
Qed.


End ReservationFacts.

(** * A model of the multitenancy service, and a world to run in *)

Module mt_model.

(** A wallet's id is made from its name; a second wallet of the same name is
    refused, and so are settings without a name and a key. *)
Definition create_wallet (settings : gmap str pyval) (mode : key_management_mode)
           (ws : wallet_store) : exn + (WalletRecord * wallet_store) :=
  match settings !! "wallet.name", settings !! "wallet.key" with
  | Some (VStr name), Some (VStr key) =>
    match ws !! ("wallet-of-" +:+ name) with
    | Some _ =>
      inl (AcaPyError
             (mkBaseError MultitenantManagerError "Wallet with this name already exists"))
    | None =>
      inr ({| wallet_id := "wallet-of-" +:+ name; wallet_name := name; wallet_key := key |},
           <["wallet-of-" +:+ name :=
               Valid {| stored_wallet_name := name; stored_wallet_key := key |}]> ws)
    end
  | _, _ => inl (AcaPyError (mkBaseError MultitenantManagerError "Missing wallet name or key"))
  end.

(** No token is issued for the wallet named [sealed]. *)
Definition create_auth_token (wallet_record : WalletRecord) (key : str) : exn + str :=
  if String.eqb (wallet_name wallet_record) "sealed"
  then inl (AcaPyError (mkBaseError WalletKeyMissingError "Missing key to open wallet"))
  else inr ("token-for-" +:+ wallet_id wallet_record).

Definition mgr : MultitenantManager :=
  {| mt_create_wallet := create_wallet; mt_create_auth_token := create_auth_token |}.

Definition config : TractionInnkeeperConfig :=
  {| innkeeper_wallet :=
       {| config_tenant_id := "innkeeper"; config_wallet_name := "traction_innkeeper";
          config_wallet_key := "change-me"; print_key := false; print_token := true |};
     reservation := {| expiry_minutes := 2880 |} |}.

Definition self : TenantManager :=
  {| _profile := {| context_settings := {["wallet.type" := VStr "askar"]};
                    inject_BaseMultitenantManager := mgr |};
     _config := config |}.

(** An empty agent, some time in November 2023. *)
Definition world : World :=
  {| os_urandom := fun n => (0x243F6A8885A308D313198A2E03707344 * (2 * N.of_nat n + 1))%N;
     drawn := 0; utcnow := 1700000000000000; log := []; stdout := [];
     wallets := ∅; tenants := ∅; mt_calls := [] |}.

End mt_model.

(** * Claims on reservation passwords *)




(** ** Another password *)

(** A library in the shape of bcrypt's that, as bcrypt does, reads no more
    than the first 72 bytes of a password. *)
Module bcrypt_72.

Definition hashpw (p s : bytes) : Result bytes := bcrypt_model.hashpw (take 72 p) s.

Definition lib : bcrypt.impl :=
  {| bcrypt.gensalt := bcrypt_model.gensalt; bcrypt.hashpw := hashpw |}.

Lemma truncating_laws : bcrypt.Laws lib.
Proof.
  pose proof bcrypt_model.laws as L.
  split; cbn [bcrypt.gensalt bcrypt.hashpw lib]; unfold hashpw.
  - apply (bcrypt.gensalt_ascii _ L).
  - intros e p _. unfold bcrypt_model.hashpw. rewrite bcrypt_model.gensalt_ok.
    eexists. reflexivity.
  - intros p s h. apply (bcrypt.hashpw_ascii _ L).
  - intros p s h H q. apply (bcrypt.hashpw_rehash _ L _ _ _ H).
Qed.

(** Two passwords of 73 bytes that differ in the last one. *)
Definition seventy_two : str := string_of_list_ascii (replicate 72 "a"%char).
Definition P73 : str := seventy_two +:+ "1".
Definition Q73 : str := seventy_two +:+ "2".

End bcrypt_72.

(** C2, as amended. For passwords [P] and [Q], checking [Q] against a record
    whose salt and hash were made for [P] returns [None] whenever the hash
    of [Q] under the record's salt differs from the hash of [P]; when the
    two hashes are the same, [Q] verifies and the check returns the hash. *)
Theorem check_other_password
        (lib : bcrypt.impl) (lib_laws : bcrypt.Laws lib)
        (self : TenantManager) (P Q : str) (e : N) (_hash hash_of_Q : bytes)
        (_expiry : Z) (w : World) :
  bcrypt.hashpw lib (str_encode P) (bcrypt.gensalt lib e) = Ok _hash ->
  bcrypt.hashpw lib (str_encode Q) (bcrypt.gensalt lib e) = Ok hash_of_Q ->
  exists record,
    store_decoded (bcrypt.gensalt lib e) _hash _expiry = Ok record /\
    (hash_of_Q <> _hash ->
     fst (check_reservation_password lib self Q record w) = Ok None) /\
    (hash_of_Q = _hash ->
     fst (check_reservation_password lib self Q record w)
     = Ok (Some (string_of_list_ascii _hash))).
Proof.
  intros HP HQ.
  pose proof (bcrypt.gensalt_ascii lib lib_laws e) as Hsalt.
  pose proof (bcrypt.hashpw_ascii lib lib_laws _ _ _ HP) as Hhash.
  eexists. split.
  { unfold store_decoded. rewrite !bytes_decode_ascii by assumption. reflexivity. }
  rewrite (check_on_strings lib lib_laws), !str_encode_of_bytes.
  rewrite HQ, (checkpw_other_hash lib lib_laws _ (str_encode Q) _ _ HP), HQ.
  unfold bcrypt.bytes_eqb. split.
  - intros Hne. rewrite bool_decide_eq_false_2 by exact Hne. reflexivity.
  - intros ->. rewrite bool_decide_eq_true_2 by reflexivity.
    now rewrite bytes_decode_ascii.
Qed.

Definition example_password : str := "243f6a88-85a3-48d3-9319-8a2e03707344".

Definition example_salt : bytes := bcrypt_model.gensalt 7.

Definition example_hash : bytes :=
  match bcrypt_model.hashpw (str_encode example_password) example_salt with
  | Ok h => h
  | Raise _ => []
  end.

Definition other_password : str := "00000000-0000-4000-8000-000000000000".

Definition other_hash : bytes :=
  match bcrypt_model.hashpw (str_encode other_password) example_salt with
  | Ok h => h
  | Raise _ => []
  end.

Lemma check_other_password_witness :
  exists record,
    store_decoded (bcrypt.gensalt bcrypt_model.lib 7) example_hash 0 = Ok record /\
    fst (check_reservation_password bcrypt_model.lib mt_model.self other_password record
           mt_model.world) = Ok None.
Proof.
  destruct (check_other_password bcrypt_model.lib bcrypt_model.laws mt_model.self
              example_password other_password 7 example_hash other_hash 0 mt_model.world)
    as (record & Hrecord & Hdiffer & _).
  - vm_compute. reflexivity.
  - vm_compute. reflexivity.
  - exists record. split; [exact Hrecord|].
    apply Hdiffer. intros H. vm_compute in H. discriminate H.
Defined.

(** C2, as stated, fails with a library that meets the laws and reads 72
    bytes: two distinct passwords that agree on their first 72 bytes have the
    same hash, and the second one verifies against the record made for the
    first. *)
Lemma check_other_password_collision :
  bcrypt.Laws bcrypt_72.lib /\
  bcrypt_72.P73 <> bcrypt_72.Q73 /\
  exists _hash record token,
    bcrypt.hashpw bcrypt_72.lib (str_encode bcrypt_72.P73) (bcrypt.gensalt bcrypt_72.lib 7)
    = Ok _hash /\
    store_decoded (bcrypt.gensalt bcrypt_72.lib 7) _hash 0 = Ok record /\
    fst (check_reservation_password bcrypt_72.lib mt_model.self bcrypt_72.Q73 record
           mt_model.world) = Ok (Some token).
Proof.
  split; [exact bcrypt_72.truncating_laws|]. split.
  - intros H. vm_compute in H. discriminate H.
  - do 3 eexists. split; [vm_compute; reflexivity|].
    split; vm_compute; reflexivity.
Qed.

(** C3, as amended. The check never looks at the expiry: whatever the
    record's expiry timestamp and whatever the time, its outcome is the
    same (so the correct password still verifies after the expiry, and
    refusing an expired reservation is left to the caller). *)
Theorem check_ignores_expiry
        (lib : bcrypt.impl) (self : TenantManager) (reservation_pwd : str)
        (record : ReservationRecord) (t now : Z) (w : World) :
  fst (check_reservation_password lib self reservation_pwd
         (set_expires_at t record) (set_utcnow now w)) =
  fst (check_reservation_password lib self reservation_pwd record w).
Proof.
  unfold check_reservation_password. py_unfold. cbn.
  destruct (py_encode (reservation_token_salt record)) as [salt|]; [|reflexivity].
  destruct (bcrypt.hashpw lib (str_encode reservation_pwd) salt) as [token|]; [|reflexivity].
  destruct (bcrypt.checkpw lib (str_encode reservation_pwd) token) as [c1|]; [|reflexivity].
  destruct (py_encode (reservation_token_hash record)) as [saved|]; [|reflexivity].
  destruct (bcrypt.checkpw lib (str_encode reservation_pwd) saved) as [c2|]; [|reflexivity].
  destruct (c1 && c2); [|reflexivity].
  destruct (bytes_decode token); reflexivity.
Qed.

(** C3, as stated, fails: a record whose expiry has passed still verifies
    its password. *)
Lemma expired_reservation_still_verifies :
  exists record token,
    store_decoded example_salt example_hash 1600000000000000 = Ok record /\
    (expires_at record < utcnow mt_model.world)%Z /\
    fst (check_reservation_password bcrypt_model.lib mt_model.self example_password
           record mt_model.world) = Ok (Some token).
Proof.
  do 2 eexists. split; [vm_compute; reflexivity|].
  split; [reflexivity|]. vm_compute. reflexivity.
Qed.

(** C6. The first comparison (the password against the hash just made from
    it) is always true, and the outcome of the check is that of the check
    against the persisted hash alone. *)
Theorem check_first_comparison_redundant
        (lib : bcrypt.impl) (lib_laws : bcrypt.Laws lib) (self : TenantManager)
        (reservation_pwd : str) (record : ReservationRecord) (w : World) :
  (forall salt reservation_token,
      bcrypt.hashpw lib (str_encode reservation_pwd) salt = Ok reservation_token ->
      bcrypt.checkpw lib (str_encode reservation_pwd) reservation_token = Ok true) /\
  fst (check_reservation_password lib self reservation_pwd record w) =
  fst (check_persisted_hash_only lib self reservation_pwd record w).
Proof.
  split; [intros salt token; apply (checkpw_own_hash lib lib_laws)|].
  unfold check_reservation_password, check_persisted_hash_only. py_unfold. cbn.
  destruct (py_encode (reservation_token_salt record)) as [salt|]; [|reflexivity].
  destruct (bcrypt.hashpw lib (str_encode reservation_pwd) salt) as [token|] eqn:Ht;
    [|reflexivity].
  rewrite (checkpw_own_hash lib lib_laws _ _ _ Ht). cbn.
  destruct (py_encode (reservation_token_hash record)) as [saved|]; [|reflexivity].
  destruct (bcrypt.checkpw lib (str_encode reservation_pwd) saved) as [[|]|];
    try reflexivity.
  destruct (bytes_decode token); reflexivity.
Qed.

Definition example_record : ReservationRecord :=
  {| reservation_token_salt := VStr (string_of_list_ascii example_salt);
     reservation_token_hash := VStr (string_of_list_ascii example_hash);
     expires_at := 1700172800000000 |}.

Lemma check_first_comparison_redundant_witness :
  (forall salt reservation_token,
      bcrypt.hashpw bcrypt_model.lib (str_encode example_password) salt = Ok reservation_token ->
      bcrypt.checkpw bcrypt_model.lib (str_encode example_password) reservation_token = Ok true) /\
  fst (check_reservation_password bcrypt_model.lib mt_model.self example_password
         example_record mt_model.world) =
  fst (check_persisted_hash_only bcrypt_model.lib mt_model.self example_password
         example_record mt_model.world).
Proof.
  exact (check_first_comparison_redundant bcrypt_model.lib bcrypt_model.laws mt_model.self
           example_password example_record mt_model.world).
Defined.

(** C10. The generator hands out the salt and the hash as bytes, the check
    calls [.encode("utf-8")] on the record's fields: on a record filled with
    the generator's values as they are, the check raises (an
    [AttributeError], before anything is hashed or logged) and returns
    neither a hash nor [None]. *)
Theorem check_raises_on_generated_bytes
        (lib : bcrypt.impl) (self : TenantManager) (w w' : World)
        (_pwd : str) (_salt _hash : bytes) (_expiry : Z) :
  generate_reservation_token_data lib self w = (Ok (_pwd, _salt, _hash, _expiry), w') ->
  forall w2,
    check_reservation_password lib self _pwd (store_raw _salt _hash _expiry) w2
    = (Raise (AttributeError "bytes" "encode"), w2).
Proof.
  intros _ w2. reflexivity.
Qed.

Lemma check_raises_on_generated_bytes_witness :
  exists _pwd _salt _hash _expiry w',
    generate_reservation_token_data bcrypt_model.lib mt_model.self mt_model.world
    = (Ok (_pwd, _salt, _hash, _expiry), w') /\
    forall w2,
      check_reservation_password bcrypt_model.lib mt_model.self _pwd
        (store_raw _salt _hash _expiry) w2
      = (Raise (AttributeError "bytes" "encode"), w2).
Proof.
  do 5 eexists. split.
  - vm_compute. reflexivity.
  - eapply (check_raises_on_generated_bytes bcrypt_model.lib mt_model.self mt_model.world).
    vm_compute. reflexivity.
Defined.

(** * Claims on wallets and tenants *)

Definition lookup_fails (wallet_id' : str) (w : World) : Prop :=
  wallets w !! wallet_id' = None \/ wallets w !! wallet_id' = Some Malformed.

Definition wallet_not_found_record (wallet_id' : str) : LogRecord :=
  {| level := INFO;
     message := F "Wallet not found with ID '{wallet_id}'" [LStr wallet_id'];
     log_args := [] |}.

(** C5. The handler of [get_token_by_wallet_id] logs a failed lookup and
    falls through to [return token], as if [token] held something; but
    [token] is bound only by the assignment in the try body, which a failed
    lookup (no record under the id, or a record that does not load) never
    reaches. So where the claim has the function return what [token] last
    held, the call logs the failure and raises [UnboundLocalError]. *)
Theorem get_token_by_wallet_id_lookup_failure
        (self : TenantManager) (wallet_id' : str) (w : World) :
  lookup_fails wallet_id' w ->
  get_token_by_wallet_id self wallet_id' w =
  (Raise (UnboundLocalError "token"),
   set_log (log w ++ [wallet_not_found_record wallet_id']) w).
Proof.
  intros H. unfold get_token_by_wallet_id, WalletRecord_retrieve_by_id. py_unfold.
  destruct H as [H|H]; rewrite H; reflexivity.
Qed.

Lemma get_token_by_wallet_id_lookup_failure_witness :
  lookup_fails "no-such-wallet" mt_model.world /\
  get_token_by_wallet_id mt_model.self "no-such-wallet" mt_model.world =
  (Raise (UnboundLocalError "token"),
   set_log (log mt_model.world ++ [wallet_not_found_record "no-such-wallet"])
           mt_model.world).
Proof.
  assert (H : lookup_fails "no-such-wallet" mt_model.world) by (left; reflexivity).
  split; [exact H|].
  exact (get_token_by_wallet_id_lookup_failure mt_model.self "no-such-wallet"
           mt_model.world H).
Defined.

(** C5, at a wallet id that storage does not have: the call returns no
    token, it raises. *)
Lemma get_token_by_wallet_id_returns_nothing :
  fst (get_token_by_wallet_id mt_model.self "no-such-wallet" mt_model.world)
  = Raise (UnboundLocalError "token") /\
  forall token,
    fst (get_token_by_wallet_id mt_model.self "no-such-wallet" mt_model.world) <> Ok token.
Proof.
  split; [reflexivity|]. intros token. discriminate.
Qed.

Lemma or_uuid4_frame (x : option str) (w w' : World) (r : Result str) :
  or_uuid4 x w = (r, w') ->
  (exists n, r = Ok n) /\ tenants w' = tenants w /\ wallets w' = wallets w /\
  log w' = log w /\ stdout w' = stdout w /\ mt_calls w' = mt_calls w.
Proof.
  unfold or_uuid4. py_unfold.
  destruct x as [[|c s]|]; intros [= <- <-]; cbn; eauto 10.
Qed.

Definition create_wallet_error_record (wallet_name' : str) (err : exn) : LogRecord :=
  {| level := ERROR;
     message := F "Error creating wallet ('{wallet_name}')." [LStr wallet_name'];
     log_args := [LExn err] |}.

Definition get_token_error_record (wallet_record : WalletRecord) (err : exn)
  : LogRecord :=
  {| level := ERROR;
     message := F "Error getting token for wallet ('{wallet_record.wallet_name}')."
                  [LStr (wallet_name wallet_record)];
     log_args := [LExn err] |}.

(** What handlers [except BaseError] that log and raise again leave of the
    world an exception reaches them in: the records are written when the
    exception is of the class they catch, and not otherwise. *)
Definition logged_if_BaseError (e : exn) (records : list LogRecord) (w : World) : World :=
  if except_BaseError e then set_log (log w ++ records) w else w.

Lemma get_token_run (self : TenantManager) (wallet_record : WalletRecord) (w : World) :
  get_token self wallet_record w =
  let answer := mt_create_auth_token (inject_BaseMultitenantManager (_profile self))
                                     wallet_record (wallet_key wallet_record) in
  let w1 := set_mt_calls
              (mt_calls w ++ [CreateAuthToken wallet_record (wallet_key wallet_record) answer])
              w in
  match answer with
  | inr token => (Ok token, w1)
  | inl e => (Raise e, logged_if_BaseError e [get_token_error_record wallet_record e] w1)
  end.
Proof.
  unfold get_token, try_except, multitenant_create_auth_token, logged_if_BaseError.
  cbv zeta.
  destruct (mt_create_auth_token _ _ _) as [e|token]; [|reflexivity].
  destruct (except_BaseError e); reflexivity.
Qed.

(** [create_wallet], step by step, for the name and key in use. *)
Lemma create_wallet_run
      (self : TenantManager) (wallet_name' wallet_key' : option str)
      (extra_settings : gmap str pyval) (tenant_id' : option str)
      (w w1 w2 : World) (n k : str) :
  or_uuid4 wallet_name' w = (Ok n, w1) ->
  or_uuid4 wallet_key' w1 = (Ok k, w2) ->
  create_wallet self wallet_name' wallet_key' extra_settings tenant_id' w =
  let mgr := inject_BaseMultitenantManager (_profile self) in
  match profile_setting self "wallet.type" with
  | Raise e => (Raise e, logged_if_BaseError e [create_wallet_error_record n e] w2)
  | Ok wallet_type =>
    let settings := wallet_settings wallet_type n k extra_settings in
    match mt_create_wallet mgr settings MODE_MANAGED (wallets w2) with
    | inl e =>
      (Raise e,
       logged_if_BaseError e [create_wallet_error_record n e]
         (set_mt_calls (mt_calls w2 ++ [CreateWallet settings MODE_MANAGED (inl e)]) w2))
    | inr (wallet_record, ws') =>
      let asked answer :=
        set_mt_calls
          (mt_calls w2 ++ [CreateWallet settings MODE_MANAGED (inr wallet_record);
                           CreateAuthToken wallet_record (wallet_key wallet_record) answer])
          (set_wallets ws' w2) in
      match mt_create_auth_token mgr wallet_record (wallet_key wallet_record) with
      | inl e =>
        (Raise e,
         logged_if_BaseError e [get_token_error_record wallet_record e;
                                create_wallet_error_record n e] (asked (inl e)))
      | inr token =>
        match create_tenant self (wallet_id wallet_record) tenant_id' (asked (inr token)) with
        | (Ok tenant, w5) => (Ok (tenant, wallet_record, token), w5)
        | (Raise e, w5) => (Raise e, w5)
        end
      end
    end
  end.
Proof.
  intros Hn Hk. unfold create_wallet, bind at 1. rewrite Hn.
  unfold bind at 1. rewrite Hk.
  unfold bind at 1, try_except at 1, bind at 1, lift. cbv zeta.
  destruct (profile_setting self "wallet.type") as [wallet_type|e].
  2:{ unfold logged_if_BaseError. destruct (except_BaseError e); reflexivity. }
  unfold bind at 1, multitenant_create_wallet. cbv zeta.
  destruct (mt_create_wallet _ _ _ _) as [e|[wallet_record ws']]; cbn [answer_of].
  { unfold logged_if_BaseError. destruct (except_BaseError e); reflexivity. }
  unfold bind at 1. rewrite get_token_run. cbv zeta.
  destruct (mt_create_auth_token _ _ _) as [e|token].
  { unfold logged_if_BaseError. destruct (except_BaseError e);
      unfold bind, logger, raise, set_log, set_mt_calls, set_wallets; cbn;
      rewrite <- ?app_assoc; reflexivity. }
  unfold ret at 1. cbn beta iota. unfold bind at 1.
  match goal with
  | |- context [create_tenant self (wallet_id wallet_record) tenant_id' ?x] =>
    match goal with
    | |- context [create_tenant self (wallet_id wallet_record) tenant_id' ?y] =>
      tryif constr_eq x y then fail else
        replace x with y
          by (unfold set_mt_calls, set_wallets; cbn; rewrite <- ?app_assoc; reflexivity)
    end
  end.
  destruct (create_tenant self (wallet_id wallet_record) tenant_id' _) as [[t|e] w5];
    reflexivity.
Qed.

(** What the multitenancy service answers to the two calls of
    [create_wallet], for the name and key in use: the settings have been
    built, and one of the two calls raises [e]. *)
Definition service_fails (self : TenantManager) (n k : str)
           (extra_settings : gmap str pyval) (ws : wallet_store) (e : exn) : Prop :=
  let mgr := inject_BaseMultitenantManager (_profile self) in
  exists wallet_type,
    profile_setting self "wallet.type" = Ok wallet_type /\
    let settings := wallet_settings wallet_type n k extra_settings in
    (mt_create_wallet mgr settings MODE_MANAGED ws = inl e \/
     exists wallet_record ws',
       mt_create_wallet mgr settings MODE_MANAGED ws = inr (wallet_record, ws') /\
       mt_create_auth_token mgr wallet_record (wallet_key wallet_record) = inl e).

Definition service_succeeds (self : TenantManager) (n k : str)
           (extra_settings : gmap str pyval) (ws : wallet_store) : Prop :=
  let mgr := inject_BaseMultitenantManager (_profile self) in
  exists wallet_type wallet_record ws' token,
    profile_setting self "wallet.type" = Ok wallet_type /\
    mt_create_wallet mgr (wallet_settings wallet_type n k extra_settings) MODE_MANAGED ws
    = inr (wallet_record, ws') /\
    mt_create_auth_token mgr wallet_record (wallet_key wallet_record) = inr token.

Lemma create_wallet_on_failure
      (self : TenantManager) (wallet_name' wallet_key' : option str)
      (extra_settings : gmap str pyval) (tenant_id' : option str)
      (w w1 w2 : World) (n k : str) (e : exn) :
  or_uuid4 wallet_name' w = (Ok n, w1) ->
  or_uuid4 wallet_key' w1 = (Ok k, w2) ->
  service_fails self n k extra_settings (wallets w2) e ->
  exists w',
    create_wallet self wallet_name' wallet_key' extra_settings tenant_id' w
    = (Raise e, w') /\
    tenants w' = tenants w /\
    if except_BaseError e
    then exists earlier, log w' = earlier ++ [create_wallet_error_record n e]
    else log w' = log w.
Proof.
  intros Hn Hk (wallet_type & Hty & Hfail).
  destruct (or_uuid4_frame _ _ _ _ Hn) as (_ & Ht1 & _ & Hl1 & _).
  destruct (or_uuid4_frame _ _ _ _ Hk) as (_ & Ht2 & _ & Hl2 & _).
  rewrite (create_wallet_run self wallet_name' wallet_key' extra_settings tenant_id'
             w w1 w2 n k Hn Hk).
  cbv zeta in *. rewrite Hty.
  destruct Hfail as [H|(wr & ws' & H1 & H2)].
  - rewrite H. eexists. split; [reflexivity|].
    unfold logged_if_BaseError. destruct (except_BaseError e); cbn.
    + split; [congruence|]. eexists. reflexivity.
    + split; congruence.
  - rewrite H1, H2. eexists. split; [reflexivity|].
    unfold logged_if_BaseError. destruct (except_BaseError e); cbn.
    + split; [congruence|].
      exists (log w2 ++ [get_token_error_record wr e]).
      rewrite <- app_assoc. reflexivity.
    + split; congruence.
Qed.

(** C4, as amended. In [create_wallet] the tenant record is only created once
    the multitenancy service has created the wallet and issued the token: if
    either call raises, [create_wallet] raises the same exception and leaves
    the tenant records as they were. It logs the exception first exactly
    when it is a [BaseError], the class its handler catches; any other
    exception leaves the log as it was. *)
Theorem create_wallet_tenant_only_after_wallet_and_token
        (self : TenantManager) (wallet_name' wallet_key' : option str)
        (extra_settings : gmap str pyval) (tenant_id' : option str)
        (w w1 w2 : World) (n k : str) :
  or_uuid4 wallet_name' w = (Ok n, w1) ->
  or_uuid4 wallet_key' w1 = (Ok k, w2) ->
  (forall e,
      service_fails self n k extra_settings (wallets w2) e ->
      exists w',
        create_wallet self wallet_name' wallet_key' extra_settings tenant_id' w
        = (Raise e, w') /\
        tenants w' = tenants w /\
        if except_BaseError e
        then exists earlier, log w' = earlier ++ [create_wallet_error_record n e]
        else log w' = log w) /\
  (forall r w',
      create_wallet self wallet_name' wallet_key' extra_settings tenant_id' w = (r, w') ->
      tenants w' <> tenants w ->
      service_succeeds self n k extra_settings (wallets w2)).
Proof.
  intros Hn Hk. split.
  - intros e Hfail. eapply create_wallet_on_failure; eassumption.
  - intros r w' Hrun Hchanged. unfold service_succeeds. cbv zeta.
    destruct (or_uuid4_frame _ _ _ _ Hn) as (_ & Ht1 & _).
    destruct (or_uuid4_frame _ _ _ _ Hk) as (_ & Ht2 & _).
    destruct (profile_setting self "wallet.type") as [wallet_type|e0] eqn:Hty.
    2:{ rewrite (create_wallet_run self wallet_name' wallet_key' extra_settings tenant_id'
                   w w1 w2 n k Hn Hk), Hty in Hrun.
        injection Hrun as _ <-. exfalso. apply Hchanged.
        unfold logged_if_BaseError. destruct (except_BaseError e0); cbn; congruence. }
    destruct (mt_create_wallet (inject_BaseMultitenantManager (_profile self))
                (wallet_settings wallet_type n k extra_settings) MODE_MANAGED (wallets w2))
      as [e|[wr ws']] eqn:H1.
    + destruct (create_wallet_on_failure self wallet_name' wallet_key' extra_settings
                  tenant_id' w w1 w2 n k e Hn Hk) as (w'' & Hrun' & Hsame & _).
      { exists wallet_type. split; [exact Hty|]. left. exact H1. }
      rewrite Hrun in Hrun'. injection Hrun' as _ ->. contradiction.
    + destruct (mt_create_auth_token (inject_BaseMultitenantManager (_profile self))
                  wr (wallet_key wr)) as [e|token] eqn:H2.
      * destruct (create_wallet_on_failure self wallet_name' wallet_key' extra_settings
                    tenant_id' w w1 w2 n k e Hn Hk) as (w'' & Hrun' & Hsame & _).
        { exists wallet_type. split; [exact Hty|]. right. exists wr, ws'. split; assumption. }
        rewrite Hrun in Hrun'. injection Hrun' as _ ->. contradiction.
      * exists wallet_type, wr, ws', token. auto.
Qed.

Definition sealed_error : BaseError :=
  mkBaseError WalletKeyMissingError "Missing key to open wallet".

Lemma create_wallet_tenant_only_after_wallet_and_token_witness :
  or_uuid4 (Some "sealed") mt_model.world = (Ok "sealed", mt_model.world) /\
  or_uuid4 (Some "key") mt_model.world = (Ok "key", mt_model.world) /\
  service_fails mt_model.self "sealed" "key" ∅ (wallets mt_model.world) sealed_error /\
  (forall e,
      service_fails mt_model.self "sealed" "key" ∅ (wallets mt_model.world) e ->
      exists w',
        create_wallet mt_model.self (Some "sealed") (Some "key") ∅ None mt_model.world
        = (Raise e, w') /\
        tenants w' = tenants mt_model.world /\
        if except_BaseError e
        then exists earlier, log w' = earlier ++ [create_wallet_error_record "sealed" e]
        else log w' = log mt_model.world) /\
  (forall r w',
      create_wallet mt_model.self (Some "sealed") (Some "key") ∅ None mt_model.world
      = (r, w') ->
      tenants w' <> tenants mt_model.world ->
      service_succeeds mt_model.self "sealed" "key" ∅ (wallets mt_model.world)).
Proof.
  split; [reflexivity|]. split; [reflexivity|]. split.
  - exists (VStr "askar"). split; [reflexivity|].
    right. do 2 eexists. split; vm_compute; reflexivity.
  - exact (create_wallet_tenant_only_after_wallet_and_token mt_model.self
             (Some "sealed") (Some "key") ∅ None mt_model.world mt_model.world
             mt_model.world "sealed" "key" eq_refl eq_refl).
Defined.

(** A service that cannot sign a token: issuing one fails with an exception
    that is not an error of the agent framework. *)
Definition unsigned_error : exn := TypeError "Expected a string value".

Definition self_unsigned : TenantManager :=
  {| _profile :=
       {| context_settings := {["wallet.type" := VStr "askar"]};
          inject_BaseMultitenantManager :=
            {| mt_create_wallet := mt_model.create_wallet;
               mt_create_auth_token := fun _ _ => inl unsigned_error |} |};
     _config := mt_model.config |}.

(** C4, as stated, fails where it says that the error is logged: an
    exception of the service that is not a [BaseError] is raised again with
    nothing written to the log. *)
Lemma create_wallet_failure_not_logged :
  service_fails self_unsigned "alice" "alice-key" ∅ (wallets mt_model.world)
                unsigned_error /\
  exists w',
    create_wallet self_unsigned (Some "alice") (Some "alice-key") ∅ None mt_model.world
    = (Raise unsigned_error, w') /\
    tenants w' = tenants mt_model.world /\
    log w' = log mt_model.world.
Proof.
  split.
  - exists (VStr "askar"). split; [reflexivity|].
    right. do 2 eexists. split; vm_compute; reflexivity.
  - eexists. split; [vm_compute; reflexivity|]. split; reflexivity.
Qed.

(** ** What saving and creating a tenant touch *)

Lemma TenantRecord_save_frame (t : TenantRecord) (w w' : World) (r : Result TenantRecord) :
  TenantRecord_save t w = (r, w') ->
  mt_calls w' = mt_calls w /\ wallets w' = wallets w /\
  log w' = log w /\ stdout w' = stdout w.
Proof.
  unfold TenantRecord_save. py_unfold.
  destruct (tenant_id t) as [i|].
  - destruct (new_with_id t); destruct (tenants w !! i);
      intros [= <- <-]; cbn; auto.
  - cbn. destruct (tenants w !! _); intros [= <- <-]; cbn; auto.
Qed.

Lemma TenantRecord_save_new (t : TenantRecord) (i : str) (w w' : World) (t' : TenantRecord) :
  tenant_id t = Some i -> new_with_id t = true ->
  TenantRecord_save t w = (Ok t', w') ->
  t' = t /\ tenants w' = <[i := Valid (tenant_value t)]> (tenants w).
Proof.
  unfold TenantRecord_save. intros -> ->.
  destruct (tenants w !! i); intros [= <- <-]; auto.
Qed.

Lemma create_tenant_frame (self : TenantManager) (wallet_id' : str)
      (tenant_id' : option str) (w w' : World) (r : Result TenantRecord) :
  create_tenant self wallet_id' tenant_id' w = (r, w') ->
  mt_calls w' = mt_calls w /\ wallets w' = wallets w /\ stdout w' = stdout w.
Proof.
  unfold create_tenant, try_except, bind at 1, WalletRecord_retrieve_by_id.
  destruct (wallets w !! wallet_id') as [[v|]|].
  - destruct (TenantRecord_save _ w) as [[t|e] w1] eqn:Hs.
    + intros [= <- <-]. destruct (TenantRecord_save_frame _ _ _ _ Hs) as (?&?&?&?). auto.
    + destruct (TenantRecord_save_frame _ _ _ _ Hs) as (?&?&?&?).
      cbn. py_unfold. intros [= <- <-]. cbn. auto.
  - cbn. py_unfold. intros [= <- <-]. cbn. auto.
  - cbn. py_unfold. intros [= <- <-]. cbn. auto.
Qed.

Lemma create_tenant_ok (self : TenantManager) (wallet_id' i : str)
      (w w' : World) (t : TenantRecord) :
  create_tenant self wallet_id' (Some i) w = (Ok t, w') ->
  exists v,
    wallets w !! wallet_id' = Some (Valid v) /\
    t = {| tenant_id := Some i; tenant_name := stored_wallet_name v;
           tenant_wallet_id := wallet_id'; new_with_id := true |} /\
    tenants w' = <[i := Valid (tenant_value t)]> (tenants w).
Proof.
  unfold create_tenant, try_except, bind at 1, WalletRecord_retrieve_by_id.
  destruct (wallets w !! wallet_id') as [[v|]|].
  - destruct (TenantRecord_save _ w) as [[t1|e] w1] eqn:Hs.
    + intros [= <- <-]. apply TenantRecord_save_new with (i := i) in Hs;
        [|reflexivity|reflexivity].
      destruct Hs as [-> Ht]. exists v. cbn in *. auto.
    + cbn. py_unfold. discriminate.
  - cbn. py_unfold. discriminate.
  - cbn. py_unfold. discriminate.
Qed.

(** ** The settings handed to the multitenancy service *)

Lemma create_wallet_first_call
      (self : TenantManager) (wallet_name' wallet_key' : option str)
      (extra_settings : gmap str pyval) (tenant_id' : option str)
      (w w1 w2 : World) (n k : str) (wallet_type : pyval) :
  or_uuid4 wallet_name' w = (Ok n, w1) ->
  or_uuid4 wallet_key' w1 = (Ok k, w2) ->
  profile_setting self "wallet.type" = Ok wallet_type ->
  exists answer later,
    mt_calls (snd (create_wallet self wallet_name' wallet_key' extra_settings tenant_id' w))
    = mt_calls w
        ++ CreateWallet (wallet_settings wallet_type n k extra_settings) MODE_MANAGED answer
        :: later.
Proof.
  intros Hn Hk Hty.
  destruct (or_uuid4_frame _ _ _ _ Hn) as (_ & _ & _ & _ & _ & Hc1).
  destruct (or_uuid4_frame _ _ _ _ Hk) as (_ & _ & _ & _ & _ & Hc2).
  rewrite (create_wallet_run self wallet_name' wallet_key' extra_settings tenant_id'
             w w1 w2 n k Hn Hk), Hty.
  cbv zeta. rewrite <- Hc1, <- Hc2.
  destruct (mt_create_wallet _ _ _ _) as [e|[wr ws']].
  - do 2 eexists. unfold logged_if_BaseError. destruct (except_BaseError e); reflexivity.
  - destruct (mt_create_auth_token _ _ _) as [e|token].
    + do 2 eexists. unfold logged_if_BaseError.
      destruct (except_BaseError e); reflexivity.
    + destruct (create_tenant self (wallet_id wr) tenant_id' _) as [[t|e] w3] eqn:Ht;
        destruct (create_tenant_frame _ _ _ _ _ _ Ht) as (Hc3 & _);
        cbn [snd]; rewrite Hc3; do 2 eexists; reflexivity.
Qed.

(** Without ["wallet.type"] in the profile's settings, [create_wallet] ends
    at the subscript. *)
Lemma create_wallet_no_wallet_type
      (self : TenantManager) (wallet_name' wallet_key' : option str)
      (extra_settings : gmap str pyval) (tenant_id' : option str)
      (w w1 w2 : World) (n k : str) :
  or_uuid4 wallet_name' w = (Ok n, w1) ->
  or_uuid4 wallet_key' w1 = (Ok k, w2) ->
  context_settings (_profile self) !! "wallet.type" = None ->
  create_wallet self wallet_name' wallet_key' extra_settings tenant_id' w
  = (Raise (KeyError "wallet.type"), w2).
Proof.
  intros Hn Hk Hnone.
  rewrite (create_wallet_run self wallet_name' wallet_key' extra_settings tenant_id'
             w w1 w2 n k Hn Hk).
  unfold profile_setting, str in *. rewrite Hnone. reflexivity.
Qed.

Lemma or_uuid4_returns (x : option str) (w : World) :
  exists n w', or_uuid4 x w = (Ok n, w').
Proof.
  destruct (or_uuid4 x w) as [r w'] eqn:H.
  destruct (or_uuid4_frame _ _ _ _ H) as ([n ->] & _). eauto.
Qed.

Lemma wallet_settings_default_label
      (wallet_type : pyval) (n k : str) (extra_settings : gmap str pyval) :
  wallet_settings wallet_type n k extra_settings !! "default_label" = Some (VStr n).
Proof. unfold wallet_settings. cbv zeta. apply lookup_insert_eq. Qed.

Lemma wallet_settings_extra
      (wallet_type : pyval) (n k : str) (extra_settings : gmap str pyval)
      (key : str) (v : pyval) :
  extra_settings !! key = Some v -> key <> "default_label" ->
  wallet_settings wallet_type n k extra_settings !! key = Some v.
Proof.
  intros Hkey Hne. unfold wallet_settings. cbv zeta.
  rewrite lookup_insert_ne by congruence.
  apply lookup_union_Some_l. exact Hkey.
Qed.

(** C8, as amended. [create_wallet] merges the caller's settings over the
    defaults: with ["wallet.type"] configured in the profile (without it the
    subscript raises before anything is sent), for every key of
    [extra_settings] other than ["default_label"], the settings passed to the
    multitenancy service's [create_wallet] map that key to the caller's
    value; ["default_label"] is mapped to the wallet name. *)
Theorem create_wallet_settings_keep_extra
        (self : TenantManager) (wallet_name' wallet_key' : option str)
        (extra_settings : gmap str pyval) (tenant_id' : option str) (w : World)
        (wallet_type : pyval) :
  profile_setting self "wallet.type" = Ok wallet_type ->
  exists n settings answer later,
    fst (or_uuid4 wallet_name' w) = Ok n /\
    mt_calls (snd (create_wallet self wallet_name' wallet_key' extra_settings tenant_id' w))
    = mt_calls w ++ CreateWallet settings MODE_MANAGED answer :: later /\
    settings !! "default_label" = Some (VStr n) /\
    forall key v,
      extra_settings !! key = Some v -> key <> "default_label" ->
      settings !! key = Some v.
Proof.
  intros Hty.
  destruct (or_uuid4_returns wallet_name' w) as (n & w1 & Hn).
  destruct (or_uuid4_returns wallet_key' w1) as (k & w2 & Hk).
  destruct (create_wallet_first_call self wallet_name' wallet_key' extra_settings
              tenant_id' w w1 w2 n k wallet_type Hn Hk Hty) as (answer & later & Hcalls).
  exists n, (wallet_settings wallet_type n k extra_settings), answer, later.
  split; [now rewrite Hn|]. split; [exact Hcalls|].
  split; [apply wallet_settings_default_label|].
  intros key v. apply wallet_settings_extra.
Qed.

Lemma create_wallet_settings_keep_extra_witness :
  profile_setting mt_model.self "wallet.type" = Ok (VStr "askar") /\
  exists n settings answer later,
    fst (or_uuid4 (Some "alice") mt_model.world) = Ok n /\
    mt_calls (snd (create_wallet mt_model.self (Some "alice") (Some "key")
                     {["wallet.webhook_urls" := VList [VStr "https://alice.example/hook"]]}
                     None mt_model.world))
    = mt_calls mt_model.world ++ CreateWallet settings MODE_MANAGED answer :: later /\
    settings !! "default_label" = Some (VStr n) /\
    forall key v,
      ({["wallet.webhook_urls" := VList [VStr "https://alice.example/hook"]]}
       : gmap str pyval) !! key = Some v ->
      key <> "default_label" ->
      settings !! key = Some v.
Proof.
  split; [reflexivity|].
  exact (create_wallet_settings_keep_extra mt_model.self (Some "alice") (Some "key")
           {["wallet.webhook_urls" := VList [VStr "https://alice.example/hook"]]}
           None mt_model.world (VStr "askar") eq_refl).
Defined.

(** C8, as stated, fails for the key ["default_label"]: the caller's value is
    replaced by the wallet name. *)
Lemma create_wallet_overwrites_default_label :
  exists settings answer later,
    mt_calls (snd (create_wallet mt_model.self (Some "alice") (Some "key")
                     {["default_label" := VStr "Alice's wallet"]} None mt_model.world))
    = CreateWallet settings MODE_MANAGED answer :: later /\
    ({["default_label" := VStr "Alice's wallet"]} : gmap str pyval) !! "default_label"
    = Some (VStr "Alice's wallet") /\
    settings !! "default_label" = Some (VStr "alice").
Proof.
  destruct (create_wallet_first_call mt_model.self (Some "alice") (Some "key")
              {["default_label" := VStr "Alice's wallet"]} None
              mt_model.world mt_model.world mt_model.world "alice" "key" (VStr "askar")
              eq_refl eq_refl eq_refl) as (answer & later & H).
  do 3 eexists. split; [exact H|].
  split; [reflexivity|]. apply wallet_settings_default_label.
Qed.

(** ** The innkeeper *)

Definition innkeeper_id (self : TenantManager) : str :=
  config_tenant_id (innkeeper_wallet (_config self)).

Definition loaded_tenant (i : str) (v : TenantValue) : TenantRecord :=
  {| tenant_id := Some i; tenant_name := stored_tenant_name v;
     tenant_wallet_id := stored_tenant_wallet_id v; new_with_id := false |}.

Definition loaded_wallet (i : str) (v : WalletValue) : WalletRecord :=
  {| wallet_id := i; wallet_name := stored_wallet_name v;
     wallet_key := stored_wallet_key v |}.

(** The lines of the report. *)
Definition report_lines (config : InnkeeperWalletConfig)
           (tenant_record : TenantRecord) (wallet_record : WalletRecord) (token : str)
  : list fstring :=
  [ F "\ntenant.tenant_name = {tenant_record.tenant_name}" [LStr (tenant_name tenant_record)];
    F "tenant.tenant_id = {tenant_record.tenant_id}" [lopt (tenant_id tenant_record)];
    F "tenant.wallet_id = {tenant_record.wallet_id}" [LStr (tenant_wallet_id tenant_record)];
    F "wallet.wallet_name = {wallet_record.wallet_name}" [LStr (wallet_name wallet_record)];
    F "wallet.wallet_id = {wallet_record.wallet_id}" [LStr (wallet_id wallet_record)];
    F "wallet.wallet_key = {_key}\n"
      [LStr (if print_key config then wallet_key wallet_record else "********")] ]
  ++ (if print_token config then [F "Bearer {token}\n" [LStr token]] else []).

(** What a call printed, and what a report says about the ids. *)
Definition printed (w w' : World) : list fstring := drop (length (stdout w)) (stdout w').

Definition reports (out : list fstring) (tenant_id' wallet_id' : str) : Prop :=
  out !! 1%nat = Some (F "tenant.tenant_id = {tenant_record.tenant_id}" [LStr tenant_id']) /\
  out !! 2%nat = Some (F "tenant.wallet_id = {tenant_record.wallet_id}" [LStr wallet_id']) /\
  out !! 4%nat = Some (F "wallet.wallet_id = {wallet_record.wallet_id}" [LStr wallet_id']).

(** The service calls a run made. *)
Definition calls_made (w w' : World) : list mt_call :=
  drop (length (mt_calls w)) (mt_calls w').

Definition is_CreateWallet (c : mt_call) : bool :=
  match c with
  | CreateWallet _ _ _ => true
  | CreateAuthToken _ _ _ => false
  end.

Arguments innkeeper_report : simpl never.
Arguments create_wallet : simpl never.
Arguments create_tenant : simpl never.

Lemma innkeeper_report_run (config : InnkeeperWalletConfig) (t : TenantRecord)
      (wr : WalletRecord) (token : str) (w : World) :
  innkeeper_report config t wr token w
  = (Ok tt, set_stdout (stdout w ++ report_lines config t wr token) w).
Proof.
  unfold innkeeper_report, report_lines. py_unfold. cbn.
  destruct (print_token config); cbn; rewrite <- ?app_assoc; reflexivity.
Qed.

Lemma innkeeper_lookup_found (self : TenantManager) (w : World)
      (tv : TenantValue) (wv : WalletValue) :
  tenants w !! innkeeper_id self = Some (Valid tv) ->
  wallets w !! stored_tenant_wallet_id tv = Some (Valid wv) ->
  innkeeper_lookup self w
  = (Ok (Some (loaded_tenant (innkeeper_id self) tv),
         Some (loaded_wallet (stored_tenant_wallet_id tv) wv)), w).
Proof.
  intros Ht Hw. unfold innkeeper_lookup, TenantRecord_retrieve_by_id,
                WalletRecord_retrieve_by_id. py_unfold.
  fold (innkeeper_id self). rewrite Ht. cbn. rewrite Hw. reflexivity.
Qed.

Lemma innkeeper_lookup_frame (self : TenantManager) (w w' : World)
      (r : Result (option TenantRecord * option WalletRecord)) :
  innkeeper_lookup self w = (r, w') ->
  tenants w' = tenants w /\ wallets w' = wallets w /\
  stdout w' = stdout w /\ mt_calls w' = mt_calls w /\
  exists found,
    r = Ok found /\
    forall t wr, found = (Some t, Some wr) ->
      exists tv wv,
        tenants w !! innkeeper_id self = Some (Valid tv) /\
        wallets w !! stored_tenant_wallet_id tv = Some (Valid wv).
Proof.
  unfold innkeeper_lookup, TenantRecord_retrieve_by_id, WalletRecord_retrieve_by_id.
  py_unfold. fold (innkeeper_id self).
  destruct (tenants w !! innkeeper_id self) as [[tv|]|] eqn:Ht; cbn.
  - destruct (wallets w !! stored_tenant_wallet_id tv) as [[wv|]|] eqn:Hw; cbn;
      intros [= <- <-]; cbn; repeat split; eexists; (split; [reflexivity|]);
        intros t wr [= <- <-]; eauto.
  - intros [= <- <-]; cbn; repeat split; eexists; (split; [reflexivity|]);
      intros t wr [=].
  - intros [= <- <-]; cbn; repeat split; eexists; (split; [reflexivity|]);
      intros t wr [=].
Qed.

Lemma printed_app (w w' : World) (l : list fstring) :
  stdout w' = stdout w ++ l -> printed w w' = l.
Proof. unfold printed. intros ->. apply drop_app_length. Qed.

Lemma calls_made_app (w w' : World) (l : list mt_call) :
  mt_calls w' = mt_calls w ++ l -> calls_made w w' = l.
Proof. unfold calls_made. intros ->. apply drop_app_length. Qed.

(** With the innkeeper's tenant and wallet in place, [create_innkeeper]
    only asks for a token and reports what is stored. *)
Lemma create_innkeeper_existing (self : TenantManager) (w : World)
      (tv : TenantValue) (wv : WalletValue) :
  tenants w !! innkeeper_id self = Some (Valid tv) ->
  wallets w !! stored_tenant_wallet_id tv = Some (Valid wv) ->
  exists r w',
    create_innkeeper self w = (r, w') /\
    tenants w' = tenants w /\ wallets w' = wallets w /\
    existsb is_CreateWallet (calls_made w w') = false /\
    (r = Ok tt ->
     reports (printed w w') (innkeeper_id self) (stored_tenant_wallet_id tv)).
Proof.
  intros Ht Hw. unfold create_innkeeper. cbv zeta.
  unfold bind at 1. rewrite (innkeeper_lookup_found self w tv wv Ht Hw).
  unfold bind at 1, bind at 1, logger at 1. cbn beta iota. unfold bind at 1.
  rewrite get_token_run. cbv zeta.
  destruct (mt_create_auth_token _ _ _) as [e|token].
  - do 2 eexists. split; [reflexivity|].
    unfold logged_if_BaseError. destruct (except_BaseError e); cbn;
      (repeat split; try discriminate);
      (erewrite calls_made_app; [|reflexivity]); reflexivity.
  - unfold ret at 1. cbn beta iota.
    rewrite innkeeper_report_run. do 2 eexists. split; [reflexivity|]. cbn.
    split; [reflexivity|]. split; [reflexivity|].
    split; [erewrite calls_made_app; [|reflexivity]; reflexivity|].
    intros _. erewrite printed_app; [|reflexivity].
    repeat split.
Qed.

(** A successful [create_wallet] under a supplied tenant id leaves that
    tenant, and the wallet it points to, in storage. *)
Lemma create_wallet_ok (self : TenantManager) (wallet_name' wallet_key' : option str)
      (extra_settings : gmap str pyval) (i : str) (w w' : World)
      (t : TenantRecord) (wr : WalletRecord) (token : str) :
  create_wallet self wallet_name' wallet_key' extra_settings (Some i) w
  = (Ok (t, wr, token), w') ->
  exists v,
    wallets w' !! wallet_id wr = Some (Valid v) /\
    tenant_id t = Some i /\ tenant_wallet_id t = wallet_id wr /\
    tenants w' !! i = Some (Valid (tenant_value t)) /\
    stdout w' = stdout w.
Proof.
  destruct (or_uuid4_returns wallet_name' w) as (n & w1 & Hn).
  destruct (or_uuid4_returns wallet_key' w1) as (k & w2 & Hk).
  destruct (or_uuid4_frame _ _ _ _ Hn) as (_ & _ & _ & _ & Ho1 & _).
  destruct (or_uuid4_frame _ _ _ _ Hk) as (_ & _ & _ & _ & Ho2 & _).
  rewrite (create_wallet_run self wallet_name' wallet_key' extra_settings (Some i)
             w w1 w2 n k Hn Hk).
  cbv zeta.
  destruct (profile_setting self "wallet.type") as [wallet_type|e]; [|discriminate].
  destruct (mt_create_wallet _ _ _ _) as [e|[wr0 ws']]; [discriminate|].
  destruct (mt_create_auth_token _ _ _) as [e|token0]; [discriminate|].
  destruct (create_tenant self (wallet_id wr0) (Some i) _) as [[t0|e] w3] eqn:Ht;
    [|discriminate].
  intros [= <- <- <- <-].
  destruct (create_tenant_frame _ _ _ _ _ _ Ht) as (_ & Hws & Hout).
  destruct (create_tenant_ok _ _ _ _ _ _ Ht) as (v & Hv & -> & Hts).
  cbn in Hv, Hws, Hout. exists v. rewrite Hws, Hts, Hout. cbn.
  split; [exact Hv|]. split; [reflexivity|]. split; [reflexivity|].
  split; [apply lookup_insert_eq|]. congruence.
Qed.

(** The first call, when it returns, leaves the innkeeper's tenant and
    wallet in storage and has reported their ids. *)
Lemma create_innkeeper_establishes (self : TenantManager) (w w' : World) :
  create_innkeeper self w = (Ok tt, w') ->
  exists tv wv,
    tenants w' !! innkeeper_id self = Some (Valid tv) /\
    wallets w' !! stored_tenant_wallet_id tv = Some (Valid wv) /\
    reports (printed w w') (innkeeper_id self) (stored_tenant_wallet_id tv).
Proof.
  intros Hrun.
  destruct (innkeeper_lookup self w) as [r0 w0] eqn:Hlook.
  destruct (innkeeper_lookup_frame self w w0 r0 Hlook)
    as (_ & _ & Hout0 & _ & found & -> & Hfound).
  assert (Hexisting :
            forall t wr, found = (Some t, Some wr) ->
                         exists tv wv,
                           tenants w' !! innkeeper_id self = Some (Valid tv) /\
                           wallets w' !! stored_tenant_wallet_id tv = Some (Valid wv) /\
                           reports (printed w w') (innkeeper_id self)
                                   (stored_tenant_wallet_id tv)).
  { intros t wr Hf. destruct (Hfound t wr Hf) as (tv & wv & Ht & Hw).
    destruct (create_innkeeper_existing self w tv wv Ht Hw)
      as (r & w'' & Hrun' & Hts & Hws & _ & Hrep).
    rewrite Hrun in Hrun'. injection Hrun' as <- <-.
    exists tv, wv. rewrite Hts, Hws. auto. }
  assert (Hcreating :
            (forall t wr, found <> (Some t, Some wr)) ->
            exists tv wv,
              tenants w' !! innkeeper_id self = Some (Valid tv) /\
              wallets w' !! stored_tenant_wallet_id tv = Some (Valid wv) /\
              reports (printed w w') (innkeeper_id self) (stored_tenant_wallet_id tv)).
  { intros Hnone. revert Hrun. unfold create_innkeeper. cbv zeta.
    unfold bind at 1. rewrite Hlook.
    assert (Hbranch :
              forall w1 : World, stdout w1 = stdout w ->
              forall created w2,
                create_wallet self (Some (config_wallet_name (innkeeper_wallet (_config self))))
                  (Some (config_wallet_key (innkeeper_wallet (_config self))))
                  {["wallet.innkeeper" := VBool true]}
                  (Some (config_tenant_id (innkeeper_wallet (_config self)))) w1
                = (Ok created, w2) ->
                let '(t, wr, token) := created in
                forall w3,
                  innkeeper_report (innkeeper_wallet (_config self)) t wr token
                    (set_log (log w2 ++ [{| level := INFO;
                                            message := F "...created '{wallet_name}' tenant and wallet."
                                                         [LStr (config_wallet_name (innkeeper_wallet (_config self)))];
                                            log_args := [] |}]) w2) = (Ok tt, w3) ->
                  w3 = w' ->
                  exists tv wv,
                    tenants w' !! innkeeper_id self = Some (Valid tv) /\
                    wallets w' !! stored_tenant_wallet_id tv = Some (Valid wv) /\
                    reports (printed w w') (innkeeper_id self)
                            (stored_tenant_wallet_id tv)).
    { intros w1 Hout1 [[t wr] token] w2 Hcw w3 Hrep <-.
      destruct (create_wallet_ok _ _ _ _ _ _ _ _ _ _ Hcw)
        as (v & Hv & Hid & Hwid & Hts & Hout2).
      rewrite innkeeper_report_run in Hrep. injection Hrep as <-.
      exists (tenant_value t), v. cbn.
      split; [exact Hts|]. split; [rewrite Hwid; exact Hv|].
      erewrite printed_app; [|cbn; rewrite Hout2, Hout1; reflexivity].
      unfold reports, report_lines. cbn. rewrite Hid, Hwid. auto. }
    unfold bind at 1.
    destruct found as [[t|] [wr|]]; try (exfalso; eapply Hnone; reflexivity).
    all: unfold bind at 1, logger at 1; cbn;
      unfold bind at 1;
      match goal with
      | |- context [create_wallet ?s ?a ?b ?c ?d ?w1] =>
        destruct (create_wallet s a b c d w1) as [[created|e] w2] eqn:Hcw;
          [|discriminate]
      end;
      unfold bind at 1, logger at 1; cbn;
      pose proof (fun H => Hbranch _ H created w2 Hcw) as Hb;
      specialize (Hb Hout0);
      destruct created as [[t' wr'] token'];
      intros Hrep; eapply Hb; [exact Hrep|reflexivity]. }
  destruct found as [[t|] [wr|]].
  - eapply Hexisting. reflexivity.
  - apply Hcreating. intros ? ? [=].
  - apply Hcreating. intros ? ? [=].
  - apply Hcreating. intros ? ? [=].
Qed.

(** C7. [create_innkeeper] is idempotent: once a call has returned, the
    tenant record under the configured innkeeper id and its wallet exist,
    and a second call creates no wallet and no tenant record, and reports
    the tenant id and wallet id the first call reported. *)
Theorem create_innkeeper_idempotent (self : TenantManager) (w0 w1 : World) :
  create_innkeeper self w0 = (Ok tt, w1) ->
  exists tv wv r2 w2,
    tenants w1 !! innkeeper_id self = Some (Valid tv) /\
    wallets w1 !! stored_tenant_wallet_id tv = Some (Valid wv) /\
    reports (printed w0 w1) (innkeeper_id self) (stored_tenant_wallet_id tv) /\
    create_innkeeper self w1 = (r2, w2) /\
    tenants w2 = tenants w1 /\ wallets w2 = wallets w1 /\
    existsb is_CreateWallet (calls_made w1 w2) = false /\
    (r2 = Ok tt ->
     reports (printed w1 w2) (innkeeper_id self) (stored_tenant_wallet_id tv)).
Proof.
  intros Hfirst.
  destruct (create_innkeeper_establishes self w0 w1 Hfirst) as (tv & wv & Ht & Hw & Hrep1).
  destruct (create_innkeeper_existing self w1 tv wv Ht Hw)
    as (r2 & w2 & Hsecond & Hts & Hws & Hcalls & Hrep2).
  exists tv, wv, r2, w2. auto 10.
Qed.

Definition innkeeper_world : World := snd (create_innkeeper mt_model.self mt_model.world).

Lemma create_innkeeper_idempotent_witness :
  create_innkeeper mt_model.self mt_model.world = (Ok tt, innkeeper_world) /\
  exists tv wv r2 w2,
    tenants innkeeper_world !! innkeeper_id mt_model.self = Some (Valid tv) /\
    wallets innkeeper_world !! stored_tenant_wallet_id tv = Some (Valid wv) /\
    reports (printed mt_model.world innkeeper_world) (innkeeper_id mt_model.self)
            (stored_tenant_wallet_id tv) /\
    create_innkeeper mt_model.self innkeeper_world = (r2, w2) /\
    tenants w2 = tenants innkeeper_world /\ wallets w2 = wallets innkeeper_world /\
    existsb is_CreateWallet (calls_made innkeeper_world w2) = false /\
    (r2 = Ok tt ->
     reports (printed innkeeper_world w2) (innkeeper_id mt_model.self)
             (stored_tenant_wallet_id tv)).
Proof.
  assert (H : create_innkeeper mt_model.self mt_model.world = (Ok tt, innkeeper_world))
    by (vm_compute; reflexivity).
  split; [exact H|].
  exact (create_innkeeper_idempotent mt_model.self mt_model.world innkeeper_world H).
Defined.

(** * Claims on the line-of-business routes *)

(** C9. Whatever the applicant and the line of business, the proof request
    that [request_degree] hands to the traction service has exactly two
    requested attributes ([degree] and [date]) and exactly one requested
    predicate ([age], [>], 18), each of them restricted to the [cred_def_id]
    of the line of business named Faber; when the three rows are found,
    that one request is made. *)
Theorem request_degree_proof_request
        (repos : line_of_business.Repositories)
        (tenant_request_credential_presentation :
           line_of_business.presentation_request -> Result pyval)
        (sandbox_id lob_id applicant_id : N) :
  let run := line_of_business.request_degree repos tenant_request_credential_presentation
                                             sandbox_id lob_id applicant_id in
  Forall (fun call =>
            exists faber,
              line_of_business.LobRepository_get_by_name_with_sandbox repos sandbox_id "Faber"
              = Ok faber /\
              line_of_business.degree_proof_request
                (line_of_business.cred_def_id faber)
                (line_of_business.request_proof_req call))
         (snd run) /\
  (is_Ok (line_of_business.ApplicantRepository_get_by_id_in_sandbox repos sandbox_id applicant_id) /\
   is_Ok (line_of_business.LobRepository_get_by_id_with_sandbox repos sandbox_id lob_id) /\
   is_Ok (line_of_business.LobRepository_get_by_name_with_sandbox repos sandbox_id "Faber") ->
   length (snd run) = 1%nat).
Proof.
  cbv zeta. unfold line_of_business.request_degree.
  destruct (line_of_business.ApplicantRepository_get_by_id_in_sandbox repos _ _)
    as [applicant|e1].
  2: { split; [constructor|]. intros ([? [=]] & _). }
  destruct (line_of_business.LobRepository_get_by_id_with_sandbox repos _ _) as [acme|e2].
  2: { split; [constructor|]. intros (_ & [? [=]] & _). }
  destruct (line_of_business.LobRepository_get_by_name_with_sandbox repos _ _)
    as [faber|e3].
  2: { split; [constructor|]. intros (_ & _ & [? [=]]). }
  split; [|reflexivity].
  constructor; [|constructor].
  exists faber. split; [reflexivity|].
  unfold line_of_business.degree_proof_request, line_of_business.proof_req_for.
  cbn. repeat split.
  - repeat constructor.
  - repeat constructor.
Qed.

(** * Further properties of the tenant manager *)

(** ** Tokens *)

(** X1. [get_token] asks the multitenancy service once, with the wallet's own
    key. It raises exactly when the service does, and then the same
    exception: one ERROR record that names the wallet is written first when
    the exception is a [BaseError], the class the handler catches, and
    nothing is logged when it is not. It never touches the tenant or wallet
    stores and prints nothing. *)
Theorem get_token_asks_once_and_reraises
        (self : TenantManager) (wallet_record : WalletRecord) (w : World) :
  let run := get_token self wallet_record w in
  let answer := mt_create_auth_token (inject_BaseMultitenantManager (_profile self))
                                     wallet_record (wallet_key wallet_record) in
  calls_made w (snd run)
  = [CreateAuthToken wallet_record (wallet_key wallet_record) answer] /\
  tenants (snd run) = tenants w /\ wallets (snd run) = wallets w /\
  stdout (snd run) = stdout w /\
  match answer with
  | inr token => fst run = Ok token /\ log (snd run) = log w
  | inl e => fst run = Raise e /\
             log (snd run) = if except_BaseError e
                             then log w ++ [get_token_error_record wallet_record e]
                             else log w
  end.
Proof.
  cbv zeta. rewrite get_token_run. cbv zeta.
  destruct (mt_create_auth_token _ _ _) as [e|token]; cbn [fst snd].
  - unfold logged_if_BaseError. destruct (except_BaseError e); cbn;
      (split; [eapply calls_made_app; reflexivity|]); auto.
  - cbn. split; [eapply calls_made_app; reflexivity|]. auto.
Qed.

Lemma get_token_by_wallet_id_found
      (self : TenantManager) (wallet_id' : str) (v : WalletValue) (w : World) :
  wallets w !! wallet_id' = Some (Valid v) ->
  get_token_by_wallet_id self wallet_id' w =
  let wallet_record := loaded_wallet wallet_id' v in
  let answer := mt_create_auth_token (inject_BaseMultitenantManager (_profile self))
                                     wallet_record (stored_wallet_key v) in
  let w1 := set_mt_calls
              (mt_calls w ++ [CreateAuthToken wallet_record (stored_wallet_key v) answer])
              w in
  match answer with
  | inr token => (Ok token, w1)
  | inl e =>
    let w2 := logged_if_BaseError e [get_token_error_record wallet_record e] w1 in
    if except_StorageError_BaseModelError e
    then (Raise (UnboundLocalError "token"),
          set_log (log w2 ++ [wallet_not_found_record wallet_id']) w2)
    else (Raise e, w2)
  end.
Proof.
  intros Hw. unfold get_token_by_wallet_id, try_except, bind at 1, bind at 1,
                  WalletRecord_retrieve_by_id.
  rewrite Hw. fold (loaded_wallet wallet_id' v).
  unfold bind at 1. rewrite get_token_run. cbv zeta. cbn [wallet_key loaded_wallet].
  destruct (mt_create_auth_token _ _ _) as [e|token]; [|reflexivity].
  destruct (except_StorageError_BaseModelError e); reflexivity.
Qed.

(** X2. When the wallet is in storage and the service issues a token,
    [get_token_by_wallet_id] returns that token, asked for with the stored
    wallet's key, and logs nothing. *)
Theorem get_token_by_wallet_id_returns_service_token
        (self : TenantManager) (wallet_id' : str) (v : WalletValue) (token : str)
        (w : World) :
  wallets w !! wallet_id' = Some (Valid v) ->
  mt_create_auth_token (inject_BaseMultitenantManager (_profile self))
                       (loaded_wallet wallet_id' v) (stored_wallet_key v) = inr token ->
  get_token_by_wallet_id self wallet_id' w =
  (Ok token,
   set_mt_calls (mt_calls w ++ [CreateAuthToken (loaded_wallet wallet_id' v)
                                                (stored_wallet_key v) (inr token)]) w).
Proof.
  intros Hw Htok. rewrite (get_token_by_wallet_id_found self wallet_id' v w Hw).
  cbv zeta. rewrite Htok. reflexivity.
Qed.

Lemma get_token_by_wallet_id_returns_service_token_witness :
  wallets innkeeper_world !! "wallet-of-traction_innkeeper"
  = Some (Valid {| stored_wallet_name := "traction_innkeeper";
                   stored_wallet_key := "change-me" |}) /\
  get_token_by_wallet_id mt_model.self "wallet-of-traction_innkeeper" innkeeper_world =
  (Ok "token-for-wallet-of-traction_innkeeper",
   set_mt_calls
     (mt_calls innkeeper_world
        ++ [CreateAuthToken
              (loaded_wallet "wallet-of-traction_innkeeper"
                 {| stored_wallet_name := "traction_innkeeper";
                    stored_wallet_key := "change-me" |})
              "change-me" (inr "token-for-wallet-of-traction_innkeeper")])
     innkeeper_world).
Proof.
  assert (H : wallets innkeeper_world !! "wallet-of-traction_innkeeper"
              = Some (Valid {| stored_wallet_name := "traction_innkeeper";
                               stored_wallet_key := "change-me" |}))
    by (vm_compute; reflexivity).
  split; [exact H|].
  exact (get_token_by_wallet_id_returns_service_token mt_model.self
           "wallet-of-traction_innkeeper" _ "token-for-wallet-of-traction_innkeeper"
           innkeeper_world H eq_refl).
Defined.

(** X3. When the wallet is found but the token is refused, the error's class
    decides: a storage or model error is caught by the handler meant for the
    lookup, logged as "Wallet not found" although the wallet was found, and
    the call ends in [UnboundLocalError]; any other error of the service
    reaches the caller as it is. Either way [get_token] has logged it. *)
Theorem get_token_by_wallet_id_token_refused
        (self : TenantManager) (wallet_id' : str) (v : WalletValue) (e : BaseError)
        (w : World) :
  wallets w !! wallet_id' = Some (Valid v) ->
  mt_create_auth_token (inject_BaseMultitenantManager (_profile self))
                       (loaded_wallet wallet_id' v) (stored_wallet_key v)
  = inl (AcaPyError e) ->
  let run := get_token_by_wallet_id self wallet_id' w in
  if is_StorageError (err_class e) || is_BaseModelError (err_class e) then
    fst run = Raise (UnboundLocalError "token") /\
    log (snd run) = log w ++ [get_token_error_record (loaded_wallet wallet_id' v) e;
                              wallet_not_found_record wallet_id']
  else
    fst run = Raise (AcaPyError e) /\
    log (snd run) = log w ++ [get_token_error_record (loaded_wallet wallet_id' v) e].
Proof.
  intros Hw Htok. cbv zeta.
  rewrite (get_token_by_wallet_id_found self wallet_id' v w Hw).
  cbv zeta. rewrite Htok.
  cbn [except_StorageError_BaseModelError logged_if_BaseError except_BaseError].
  destruct (is_StorageError (err_class e) || is_BaseModelError (err_class e)); cbn.
  - split; [reflexivity|]. rewrite <- app_assoc. reflexivity.
  - split; reflexivity.
Qed.

(** A service whose storage is down when a token is asked for, and a world
    with one wallet. *)
Definition storage_down : BaseError := mkBaseError StorageError "storage is down".

Definition self_storage_down : TenantManager :=
  {| _profile :=
       {| context_settings := ∅;
          inject_BaseMultitenantManager :=
            {| mt_create_wallet := mt_model.create_wallet;
               mt_create_auth_token := fun _ _ => inl (AcaPyError storage_down) |} |};
     _config := mt_model.config |}.

Definition alice_wallet : WalletValue :=
  {| stored_wallet_name := "alice"; stored_wallet_key := "alice-key" |}.

Definition world_with_alice : World :=
  set_wallets (<["wallet-of-alice" := Valid alice_wallet]> ∅) mt_model.world.

Lemma get_token_by_wallet_id_token_refused_witness :
  wallets world_with_alice !! "wallet-of-alice" = Some (Valid alice_wallet) /\
  fst (get_token_by_wallet_id self_storage_down "wallet-of-alice" world_with_alice)
  = Raise (UnboundLocalError "token") /\
  log (snd (get_token_by_wallet_id self_storage_down "wallet-of-alice" world_with_alice))
  = log world_with_alice
      ++ [get_token_error_record (loaded_wallet "wallet-of-alice" alice_wallet) storage_down;
          wallet_not_found_record "wallet-of-alice"].
Proof.
  assert (H : wallets world_with_alice !! "wallet-of-alice" = Some (Valid alice_wallet))
    by (vm_compute; reflexivity).
  split; [exact H|].
  exact (get_token_by_wallet_id_token_refused self_storage_down "wallet-of-alice"
           alice_wallet storage_down world_with_alice H eq_refl).
Defined.

(** ** Tenants *)

Definition exn_error_record (e : exn) : LogRecord :=
  {| level := ERROR; message := F "{}" [LExn e]; log_args := [] |}.

(** X4. [create_tenant] for a wallet that is not in storage (or does not
    load) creates no tenant: it logs the storage error and raises it again,
    whatever the tenant id asked for. *)
Theorem create_tenant_without_wallet
        (self : TenantManager) (wallet_id' : str) (tenant_id' : option str) (w : World) :
  lookup_fails wallet_id' w ->
  exists e,
    except_StorageError_BaseModelError e = true /\
    create_tenant self wallet_id' tenant_id' w
    = (Raise e, set_log (log w ++ [exn_error_record e]) w).
Proof.
  intros H. unfold create_tenant, try_except, bind at 1, WalletRecord_retrieve_by_id.
  destruct H as [H|H]; rewrite H; eexists; (split; [|reflexivity]); reflexivity.
Qed.

Lemma create_tenant_without_wallet_witness :
  lookup_fails "no-such-wallet" mt_model.world /\
  exists e,
    except_StorageError_BaseModelError e = true /\
    create_tenant mt_model.self "no-such-wallet" (Some "tenant-1") mt_model.world
    = (Raise e, set_log (log mt_model.world ++ [exn_error_record e]) mt_model.world).
Proof.
  assert (H : lookup_fails "no-such-wallet" mt_model.world) by (left; reflexivity).
  split; [exact H|].
  exact (create_tenant_without_wallet mt_model.self "no-such-wallet" (Some "tenant-1")
           mt_model.world H).
Defined.

Lemma TenantRecord_save_inv (t t' : TenantRecord) (w w' : World) :
  new_with_id t = bool_decide (tenant_id t <> None) ->
  TenantRecord_save t w = (Ok t', w') ->
  exists i,
    tenant_id t' = Some i /\ tenant_name t' = tenant_name t /\
    tenant_wallet_id t' = tenant_wallet_id t /\
    (forall j, tenant_id t = Some j -> i = j) /\
    tenants w !! i = None /\
    tenants w' = <[i := Valid (tenant_value t')]> (tenants w).
Proof.
  unfold TenantRecord_save. destruct t as [[i|] name wid new]; cbn.
  - intros ->. try rewrite bool_decide_eq_true_2 by discriminate.
    destruct (tenants w !! i) eqn:Hi; intros [= <- <-].
    exists i. cbn. repeat split; try assumption. now intros j [= <-].
  - intros _. py_unfold. cbn.
    destruct (tenants w !! _) eqn:Hi; intros [= <- <-].
    eexists. cbn. repeat split; try eassumption. intros j [=].
Qed.

Lemma TenantRecord_save_raise (t : TenantRecord) (e : exn) (w w' : World) :
  TenantRecord_save t w = (Raise e, w') -> tenants w' = tenants w.
Proof.
  unfold TenantRecord_save. destruct (tenant_id t) as [i|].
  - destruct (new_with_id t); destruct (tenants w !! i); intros [= <- <-]; reflexivity.
  - py_unfold. cbn. destruct (tenants w !! _); intros [= <- <-]; reflexivity.
Qed.

Lemma create_tenant_raise (self : TenantManager) (wallet_id' : str)
      (tenant_id' : option str) (e : exn) (w w' : World) :
  create_tenant self wallet_id' tenant_id' w = (Raise e, w') ->
  tenants w' = tenants w.
Proof.
  unfold create_tenant, try_except, bind at 1, WalletRecord_retrieve_by_id.
  destruct (wallets w !! wallet_id') as [[v|]|].
  - destruct (TenantRecord_save _ w) as [[t|e'] w1] eqn:Hs; [discriminate|].
    apply TenantRecord_save_raise in Hs.
    cbn. py_unfold. intros [= <- <-]. cbn. exact Hs.
  - cbn. py_unfold. intros [= <- <-]. reflexivity.
  - cbn. py_unfold. intros [= <- <-]. reflexivity.
Qed.

Lemma create_tenant_inv (self : TenantManager) (wallet_id' : str)
      (tenant_id' : option str) (t : TenantRecord) (w w' : World) :
  create_tenant self wallet_id' tenant_id' w = (Ok t, w') ->
  exists v i,
    wallets w !! wallet_id' = Some (Valid v) /\
    tenant_id t = Some i /\ tenant_name t = stored_wallet_name v /\
    tenant_wallet_id t = wallet_id' /\
    (forall j, tenant_id' = Some j -> i = j) /\
    tenants w !! i = None /\
    tenants w' = <[i := Valid (tenant_value t)]> (tenants w).
Proof.
  unfold create_tenant, try_except, bind at 1, WalletRecord_retrieve_by_id.
  destruct (wallets w !! wallet_id') as [[v|]|].
  - destruct (TenantRecord_save _ w) as [[t1|e] w1] eqn:Hs.
    + intros [= <- <-]. apply TenantRecord_save_inv in Hs; [|reflexivity].
      destruct Hs as (i & ? & ? & ? & ? & ? & ?). exists v, i. cbn in *. auto 10.
    + cbn. py_unfold. discriminate.
  - cbn. py_unfold. discriminate.
  - cbn. py_unfold. discriminate.
Qed.

(** X5. A tenant that [create_tenant] has created can be read back: it is
    stored under its id (the one asked for, when one was), with the name of
    the wallet as storage has it and the wallet's id; that id was free
    before, the other tenants and all the wallets are as they were. *)
Theorem create_tenant_then_retrieve
        (self : TenantManager) (wallet_id' : str) (tenant_id' : option str)
        (t : TenantRecord) (w w' : World) :
  create_tenant self wallet_id' tenant_id' w = (Ok t, w') ->
  exists i v,
    tenant_id t = Some i /\ (forall j, tenant_id' = Some j -> i = j) /\
    wallets w !! wallet_id' = Some (Valid v) /\
    tenants w !! i = None /\
    TenantRecord_retrieve_by_id i w'
    = (Ok {| tenant_id := Some i; tenant_name := stored_wallet_name v;
             tenant_wallet_id := wallet_id'; new_with_id := false |}, w') /\
    (forall j, j <> i -> tenants w' !! j = tenants w !! j) /\
    wallets w' = wallets w.
Proof.
  intros H. destruct (create_tenant_frame _ _ _ _ _ _ H) as (_ & Hws & _).
  destruct (create_tenant_inv _ _ _ _ _ _ H) as (v & i & Hv & Hi & Hn & Hwid & Hj & Hfree & Hts).
  exists i, v. repeat split; try assumption.
  - unfold TenantRecord_retrieve_by_id. rewrite Hts, lookup_insert_eq. cbn.
    now rewrite Hn, Hwid.
  - intros j Hne. rewrite Hts. apply lookup_insert_ne. congruence.
Qed.

Lemma create_tenant_then_retrieve_witness :
  exists t w',
    create_tenant mt_model.self "wallet-of-alice" (Some "tenant-of-alice") world_with_alice
    = (Ok t, w') /\
    exists i v,
      tenant_id t = Some i /\ (forall j, Some "tenant-of-alice" = Some j -> i = j) /\
      wallets world_with_alice !! "wallet-of-alice" = Some (Valid v) /\
      tenants world_with_alice !! i = None /\
      TenantRecord_retrieve_by_id i w'
      = (Ok {| tenant_id := Some i; tenant_name := stored_wallet_name v;
               tenant_wallet_id := "wallet-of-alice"; new_with_id := false |}, w') /\
      (forall j, j <> i -> tenants w' !! j = tenants world_with_alice !! j) /\
      wallets w' = wallets world_with_alice.
Proof.
  do 2 eexists. split.
  - vm_compute. reflexivity.
  - eapply (create_tenant_then_retrieve mt_model.self "wallet-of-alice"
              (Some "tenant-of-alice")).
    vm_compute. reflexivity.
Defined.

(** X6. [create_tenant] under a tenant id that is taken stores nothing: it
    raises the storage's duplicate error (logged once) and the tenant that
    was there stays. *)
Theorem create_tenant_taken_id
        (self : TenantManager) (wallet_id' i : str) (v : WalletValue)
        (old : stored TenantValue) (w : World) :
  wallets w !! wallet_id' = Some (Valid v) ->
  tenants w !! i = Some old ->
  let e := AcaPyError (mkBaseError StorageDuplicateError i) in
  create_tenant self wallet_id' (Some i) w
  = (Raise e, set_log (log w ++ [exn_error_record e]) w).
Proof.
  intros Hw Ht. cbv zeta.
  unfold create_tenant, try_except, bind at 1, WalletRecord_retrieve_by_id.
  rewrite Hw. unfold TenantRecord_save. cbn. rewrite Ht. reflexivity.
Qed.

Lemma create_tenant_taken_id_witness :
  exists v old,
    wallets innkeeper_world !! "wallet-of-traction_innkeeper" = Some (Valid v) /\
    tenants innkeeper_world !! "innkeeper" = Some old /\
    create_tenant mt_model.self "wallet-of-traction_innkeeper" (Some "innkeeper")
                  innkeeper_world
    = (Raise (AcaPyError (mkBaseError StorageDuplicateError "innkeeper")),
       set_log (log innkeeper_world
                  ++ [exn_error_record
                        (AcaPyError (mkBaseError StorageDuplicateError "innkeeper"))])
               innkeeper_world).
Proof.
  do 2 eexists.
  assert (Hw : wallets innkeeper_world !! "wallet-of-traction_innkeeper"
               = Some (Valid {| stored_wallet_name := "traction_innkeeper";
                                stored_wallet_key := "change-me" |}))
    by (vm_compute; reflexivity).
  assert (Ht : tenants innkeeper_world !! "innkeeper"
               = Some (Valid {| stored_tenant_name := "traction_innkeeper";
                                stored_tenant_wallet_id := "wallet-of-traction_innkeeper" |}))
    by (vm_compute; reflexivity).
  split; [exact Hw|]. split; [exact Ht|].
  exact (create_tenant_taken_id mt_model.self "wallet-of-traction_innkeeper" "innkeeper"
           _ _ innkeeper_world Hw Ht).
Defined.

(** ** Wallets *)

Lemma or_uuid4_given (s n : str) (w w1 : World) :
  or_uuid4 (Some s) w = (Ok n, w1) -> s <> "" -> n = s /\ w1 = w.
Proof.
  unfold or_uuid4. destruct s as [|c s]; [congruence|].
  intros [= <- <-] _. auto.
Qed.

(** [create_wallet] once the service has created the wallet and issued the
    token: what is left is [create_tenant]. *)
Lemma create_wallet_after_service
      (self : TenantManager) (wallet_name' wallet_key' : option str)
      (extra_settings : gmap str pyval) (tenant_id' : option str)
      (w w1 w2 : World) (n k : str) (wallet_type : pyval)
      (wallet_record : WalletRecord) (ws' : wallet_store) (token : str) :
  or_uuid4 wallet_name' w = (Ok n, w1) ->
  or_uuid4 wallet_key' w1 = (Ok k, w2) ->
  profile_setting self "wallet.type" = Ok wallet_type ->
  let mgr := inject_BaseMultitenantManager (_profile self) in
  let settings := wallet_settings wallet_type n k extra_settings in
  mt_create_wallet mgr settings MODE_MANAGED (wallets w2) = inr (wallet_record, ws') ->
  mt_create_auth_token mgr wallet_record (wallet_key wallet_record) = inr token ->
  create_wallet self wallet_name' wallet_key' extra_settings tenant_id' w =
  let w4 := set_mt_calls
              (mt_calls w2 ++ [CreateWallet settings MODE_MANAGED (inr wallet_record);
                               CreateAuthToken wallet_record (wallet_key wallet_record)
                                               (inr token)])
              (set_wallets ws' w2) in
  match create_tenant self (wallet_id wallet_record) tenant_id' w4 with
  | (Ok tenant, w5) => (Ok (tenant, wallet_record, token), w5)
  | (Raise e, w5) => (Raise e, w5)
  end.
Proof.
  intros Hn Hk Hty mgr settings H1 H2.
  rewrite (create_wallet_run self wallet_name' wallet_key' extra_settings tenant_id'
             w w1 w2 n k Hn Hk), Hty.
  cbv zeta. fold mgr settings. rewrite H1, H2. reflexivity.
Qed.

(** X7. A [create_wallet] that returns has made exactly two calls to the
    service, in this order: [create_wallet] in managed mode with the merged
    settings, built on the wallet type the profile has configured, then
    [create_auth_token] for the record that came back, with that record's
    key. The wallet record and token it returns are the service's; the
    tenant it returns is stored under a tenant id that was free (the one
    asked for, when one was), points to that wallet, and is named after the
    wallet as storage has it. *)
Theorem create_wallet_success
        (self : TenantManager) (wallet_name' wallet_key' : option str)
        (extra_settings : gmap str pyval) (tenant_id' : option str)
        (w w' : World) (t : TenantRecord) (wallet_record : WalletRecord) (token : str) :
  create_wallet self wallet_name' wallet_key' extra_settings tenant_id' w
  = (Ok (t, wallet_record, token), w') ->
  exists wallet_type n k i v,
    profile_setting self "wallet.type" = Ok wallet_type /\
    calls_made w w'
    = [CreateWallet (wallet_settings wallet_type n k extra_settings) MODE_MANAGED
                    (inr wallet_record);
       CreateAuthToken wallet_record (wallet_key wallet_record) (inr token)] /\
    tenant_id t = Some i /\ (forall j, tenant_id' = Some j -> i = j) /\
    tenant_wallet_id t = wallet_id wallet_record /\
    wallets w' !! wallet_id wallet_record = Some (Valid v) /\
    tenant_name t = stored_wallet_name v /\
    tenants w !! i = None /\
    tenants w' = <[i := Valid (tenant_value t)]> (tenants w).
Proof.
  intros Hrun.
  destruct (or_uuid4_returns wallet_name' w) as (n & w1 & Hn).
  destruct (or_uuid4_returns wallet_key' w1) as (k & w2 & Hk).
  destruct (or_uuid4_frame _ _ _ _ Hn) as (_ & Ht1 & _ & _ & _ & Hc1).
  destruct (or_uuid4_frame _ _ _ _ Hk) as (_ & Ht2 & _ & _ & _ & Hc2).
  rewrite (create_wallet_run self wallet_name' wallet_key' extra_settings tenant_id'
             w w1 w2 n k Hn Hk) in Hrun.
  cbv zeta in Hrun.
  destruct (profile_setting self "wallet.type") as [wallet_type|e]; [|discriminate].
  destruct (mt_create_wallet _ _ _ _) as [e|[wr ws']]; [discriminate|].
  destruct (mt_create_auth_token _ _ _) as [e|token0]; [discriminate|].
  destruct (create_tenant self (wallet_id wr) tenant_id' _) as [[t0|e] w5] eqn:Hct;
    [|discriminate].
  injection Hrun as <- <- <- <-.
  destruct (create_tenant_frame _ _ _ _ _ _ Hct) as (Hcalls & Hws & _).
  destruct (create_tenant_inv _ _ _ _ _ _ Hct)
    as (v & i & Hv & Hi & Hname & Hwid & Hj & Hfree & Hts).
  cbn in Hcalls, Hws, Hv, Hfree, Hts.
  exists wallet_type, n, k, i, v. repeat split; try assumption.
  - apply calls_made_app. rewrite Hcalls, Hc2, Hc1. reflexivity.
  - rewrite Hws. exact Hv.
  - rewrite <- Ht1, <- Ht2. exact Hfree.
  - rewrite Hts, Ht2, Ht1. reflexivity.
Qed.

Lemma create_wallet_success_witness :
  exists t wallet_record token w',
    create_wallet mt_model.self (Some "alice") None ∅ None mt_model.world
    = (Ok (t, wallet_record, token), w') /\
    exists wallet_type n k i v,
      profile_setting mt_model.self "wallet.type" = Ok wallet_type /\
      calls_made mt_model.world w'
      = [CreateWallet (wallet_settings wallet_type n k ∅) MODE_MANAGED
                      (inr wallet_record);
         CreateAuthToken wallet_record (wallet_key wallet_record) (inr token)] /\
      tenant_id t = Some i /\ (forall j, @None str = Some j -> i = j) /\
      tenant_wallet_id t = wallet_id wallet_record /\
      wallets w' !! wallet_id wallet_record = Some (Valid v) /\
      tenant_name t = stored_wallet_name v /\
      tenants mt_model.world !! i = None /\
      tenants w' = <[i := Valid (tenant_value t)]> (tenants mt_model.world).
Proof.
  do 4 eexists. split.
  - vm_compute. reflexivity.
  - eapply (create_wallet_success mt_model.self (Some "alice") None ∅ None mt_model.world).
    vm_compute. reflexivity.
Defined.

(** X8. No rollback: when the service has created the wallet for the
    settings built on the configured wallet type and has issued the token,
    but the tenant record cannot be created, [create_wallet] raises and
    stores no tenant, and the wallet store stays as the service left it, new
    wallet included. *)
Theorem create_wallet_no_rollback
        (self : TenantManager) (wallet_name' wallet_key' : option str)
        (extra_settings : gmap str pyval) (tenant_id' : option str)
        (w w1 w2 w' : World) (n k : str) (wallet_type : pyval)
        (wallet_record : WalletRecord) (ws' : wallet_store) (token : str) (e : exn) :
  or_uuid4 wallet_name' w = (Ok n, w1) ->
  or_uuid4 wallet_key' w1 = (Ok k, w2) ->
  profile_setting self "wallet.type" = Ok wallet_type ->
  mt_create_wallet (inject_BaseMultitenantManager (_profile self))
                   (wallet_settings wallet_type n k extra_settings) MODE_MANAGED (wallets w2)
  = inr (wallet_record, ws') ->
  mt_create_auth_token (inject_BaseMultitenantManager (_profile self))
                       wallet_record (wallet_key wallet_record) = inr token ->
  create_wallet self wallet_name' wallet_key' extra_settings tenant_id' w = (Raise e, w') ->
  wallets w' = ws' /\ tenants w' = tenants w /\
  create_tenant self (wallet_id wallet_record) tenant_id'
    (set_mt_calls
       (mt_calls w2 ++ [CreateWallet (wallet_settings wallet_type n k extra_settings)
                                     MODE_MANAGED (inr wallet_record);
                        CreateAuthToken wallet_record (wallet_key wallet_record)
                                        (inr token)])
       (set_wallets ws' w2))
  = (Raise e, w').
Proof.
  intros Hn Hk Hty H1 H2 Hrun.
  destruct (or_uuid4_frame _ _ _ _ Hn) as (_ & Ht1 & _).
  destruct (or_uuid4_frame _ _ _ _ Hk) as (_ & Ht2 & _).
  rewrite (create_wallet_after_service self wallet_name' wallet_key' extra_settings
             tenant_id' w w1 w2 n k wallet_type wallet_record ws' token Hn Hk Hty H1 H2)
    in Hrun.
  cbv zeta in Hrun.
  destruct (create_tenant self (wallet_id wallet_record) tenant_id' _)
    as [[t0|e0] w5] eqn:Hct; [discriminate|].
  injection Hrun as <- <-.
  destruct (create_tenant_frame _ _ _ _ _ _ Hct) as (_ & Hws & _).
  pose proof (create_tenant_raise _ _ _ _ _ _ Hct) as Hts.
  cbn in Hws, Hts. repeat split; [exact Hws|congruence].
Qed.

Definition bob_record : WalletRecord :=
  {| wallet_id := "wallet-of-bob"; wallet_name := "bob"; wallet_key := "bob-key" |}.

Definition store_with_bob : wallet_store :=
  <["wallet-of-bob" := Valid {| stored_wallet_name := "bob"; stored_wallet_key := "bob-key" |}]>
    (wallets innkeeper_world).

Definition innkeeper_taken : exn :=
  AcaPyError (mkBaseError StorageDuplicateError "innkeeper").

Definition world_after_bob : World :=
  snd (create_wallet mt_model.self (Some "bob") (Some "bob-key") ∅ (Some "innkeeper")
                     innkeeper_world).

Lemma create_wallet_no_rollback_witness :
  profile_setting mt_model.self "wallet.type" = Ok (VStr "askar") /\
  mt_model.create_wallet (wallet_settings (VStr "askar") "bob" "bob-key" ∅) MODE_MANAGED
                         (wallets innkeeper_world) = inr (bob_record, store_with_bob) /\
  create_wallet mt_model.self (Some "bob") (Some "bob-key") ∅ (Some "innkeeper")
                innkeeper_world = (Raise innkeeper_taken, world_after_bob) /\
  wallets innkeeper_world !! "wallet-of-bob" = None /\
  wallets world_after_bob = store_with_bob /\
  tenants world_after_bob = tenants innkeeper_world /\
  create_tenant mt_model.self (wallet_id bob_record) (Some "innkeeper")
    (set_mt_calls
       (mt_calls innkeeper_world
          ++ [CreateWallet (wallet_settings (VStr "askar") "bob" "bob-key" ∅) MODE_MANAGED
                           (inr bob_record);
              CreateAuthToken bob_record (wallet_key bob_record)
                              (inr "token-for-wallet-of-bob")])
       (set_wallets store_with_bob innkeeper_world))
  = (Raise innkeeper_taken, world_after_bob).
Proof.
  assert (H1 : mt_model.create_wallet (wallet_settings (VStr "askar") "bob" "bob-key" ∅)
                 MODE_MANAGED (wallets innkeeper_world) = inr (bob_record, store_with_bob))
    by (vm_compute; reflexivity).
  assert (Hrun : create_wallet mt_model.self (Some "bob") (Some "bob-key") ∅
                   (Some "innkeeper") innkeeper_world
                 = (Raise innkeeper_taken, world_after_bob))
    by (vm_compute; reflexivity).
  split; [reflexivity|]. split; [exact H1|]. split; [exact Hrun|].
  split; [vm_compute; reflexivity|].
  exact (create_wallet_no_rollback mt_model.self (Some "bob") (Some "bob-key") ∅
           (Some "innkeeper") innkeeper_world innkeeper_world innkeeper_world
           world_after_bob "bob" "bob-key" (VStr "askar") bob_record store_with_bob
           "token-for-wallet-of-bob" innkeeper_taken eq_refl eq_refl eq_refl H1 eq_refl Hrun).
Defined.

(** ** The settings, key by key *)

Lemma wallet_settings_at
      (wallet_type : pyval) (n k : str) (extra_settings : gmap str pyval) (key : str) :
  wallet_settings wallet_type n k extra_settings !! key =
  if decide (key = "default_label") then Some (VStr n)
  else
    match extra_settings !! key with
    | Some v => Some v
    | None =>
      if decide (key = "wallet.type") then Some wallet_type
      else if decide (key = "wallet.name") then Some (VStr n)
      else if decide (key = "wallet.key") then Some (VStr k)
      else if decide (key = "wallet.webhook_urls") then Some (VList [])
      else if decide (key = "wallet.dispatch_type") then Some (VStr "base")
      else None
    end.
Proof.
  unfold wallet_settings. cbv zeta.
  rewrite lookup_insert.
  destruct (decide (key = "default_label")) as [->|Hne].
  { case_decide; [reflexivity|congruence]. }
  case_decide; [congruence|].
  rewrite lookup_union. destruct (extra_settings !! key) as [v|] eqn:He.
  { clear He. destruct (_ !! key); reflexivity. }
  rewrite !lookup_insert, lookup_empty.
  repeat (case_decide; simplify_eq; try reflexivity).
Qed.


(** ** The innkeeper, absent *)

Lemma or_uuid4_some (s : str) (w : World) :
  s <> "" -> or_uuid4 (Some s) w = (Ok s, w).
Proof. unfold or_uuid4. destruct s; [congruence|reflexivity]. Qed.

Definition creating_record (self : TenantManager) : LogRecord :=
  {| level := INFO;
     message := F "creating '{wallet_name}' wallet..."
                  [LStr (config_wallet_name (innkeeper_wallet (_config self)))];
     log_args := [] |}.

Definition created_record (self : TenantManager) : LogRecord :=
  {| level := INFO;
     message := F "...created '{wallet_name}' tenant and wallet."
                  [LStr (config_wallet_name (innkeeper_wallet (_config self)))];
     log_args := [] |}.

Definition tenant_not_found_record (self : TenantManager) : LogRecord :=
  {| level := INFO;
     message := F "Tenant not found with ID '{tenant_id}'" [LStr (innkeeper_id self)];
     log_args := [] |}.

Definition innkeeper_settings : gmap str pyval := {["wallet.innkeeper" := VBool true]}.

(** [create_innkeeper] when the lookup has not found both records: the
    else branch. *)
Lemma create_innkeeper_creating (self : TenantManager) (w w0 : World)
      (found : option TenantRecord * option WalletRecord) :
  innkeeper_lookup self w = (Ok found, w0) ->
  fst found = None \/ snd found = None ->
  create_innkeeper self w =
  match create_wallet self (Some (config_wallet_name (innkeeper_wallet (_config self))))
                      (Some (config_wallet_key (innkeeper_wallet (_config self))))
                      innkeeper_settings (Some (innkeeper_id self))
                      (set_log (log w0 ++ [creating_record self]) w0) with
  | (Ok (t, wr, token), w2) =>
    innkeeper_report (innkeeper_wallet (_config self)) t wr token
                     (set_log (log w2 ++ [created_record self]) w2)
  | (Raise e, w2) => (Raise e, w2)
  end.
Proof.
  intros Hlook Hnot. unfold create_innkeeper. cbv zeta.
  unfold bind at 1. rewrite Hlook. unfold bind at 1.
  assert (Hbranch :
            (logger INFO (F "creating '{wallet_name}' wallet..."
                            [LStr (config_wallet_name (innkeeper_wallet (_config self)))]) [] ;;
             created <- create_wallet self
                          (Some (config_wallet_name (innkeeper_wallet (_config self))))
                          (Some (config_wallet_key (innkeeper_wallet (_config self))))
                          {["wallet.innkeeper" := VBool true]}
                          (Some (config_tenant_id (innkeeper_wallet (_config self)))) ;;
             logger INFO (F "...created '{wallet_name}' tenant and wallet."
                            [LStr (config_wallet_name (innkeeper_wallet (_config self)))]) [] ;;
             ret created) w0
            = match create_wallet self
                      (Some (config_wallet_name (innkeeper_wallet (_config self))))
                      (Some (config_wallet_key (innkeeper_wallet (_config self))))
                      innkeeper_settings (Some (innkeeper_id self))
                      (set_log (log w0 ++ [creating_record self]) w0) with
              | (Ok created, w2) => (Ok created, set_log (log w2 ++ [created_record self]) w2)
              | (Raise e, w2) => (Raise e, w2)
              end).
  { unfold bind at 1, logger at 1. cbn beta iota. unfold bind at 1.
    fold (innkeeper_id self). fold innkeeper_settings. fold (creating_record self).
    destruct (create_wallet _ _ _ _ _ _) as [[created|e] w2]; reflexivity. }
  destruct found as [[t|] [wr|]]; cbn in Hnot;
    try (destruct Hnot; discriminate);
    rewrite Hbranch;
    destruct (create_wallet _ _ _ _ _ _) as [[[[t' wr'] token']|e] w2]; reflexivity.
Qed.

Lemma innkeeper_lookup_absent (self : TenantManager) (w : World) :
  tenants w !! innkeeper_id self = None ->
  innkeeper_lookup self w
  = (Ok (None, None), set_log (log w ++ [tenant_not_found_record self]) w).
Proof.
  intros H. unfold innkeeper_lookup, TenantRecord_retrieve_by_id. py_unfold.
  fold (innkeeper_id self). rewrite H. reflexivity.
Qed.

(** X10. When storage has no tenant under the configured innkeeper id and
    the profile has ["wallet.type"] configured, the first call
    [create_innkeeper] makes to the service is [create_wallet], in managed
    mode, with settings that carry ["wallet.innkeeper"] = True, the
    configured wallet type, wallet name and key, and the name as label. *)
Theorem create_innkeeper_absent_creates_innkeeper_wallet
        (self : TenantManager) (w : World) (wallet_type : pyval) :
  tenants w !! innkeeper_id self = None ->
  config_wallet_name (innkeeper_wallet (_config self)) <> "" ->
  config_wallet_key (innkeeper_wallet (_config self)) <> "" ->
  profile_setting self "wallet.type" = Ok wallet_type ->
  exists settings answer later,
    calls_made w (snd (create_innkeeper self w))
    = CreateWallet settings MODE_MANAGED answer :: later /\
    settings !! "wallet.innkeeper" = Some (VBool true) /\
    settings !! "wallet.type" = Some wallet_type /\
    settings !! "wallet.name"
    = Some (VStr (config_wallet_name (innkeeper_wallet (_config self)))) /\
    settings !! "wallet.key"
    = Some (VStr (config_wallet_key (innkeeper_wallet (_config self)))) /\
    settings !! "default_label"
    = Some (VStr (config_wallet_name (innkeeper_wallet (_config self)))).
Proof.
  intros Habsent Hname Hkey Hty.
  set (name := config_wallet_name (innkeeper_wallet (_config self))) in *.
  set (key := config_wallet_key (innkeeper_wallet (_config self))) in *.
  rewrite (create_innkeeper_creating self w _ _ (innkeeper_lookup_absent self w Habsent))
    by (left; reflexivity).
  fold name key.
  set (w1 := set_log _ _).
  destruct (create_wallet_first_call self (Some name) (Some key) innkeeper_settings
              (Some (innkeeper_id self)) w1 w1 w1 name key wallet_type
              (or_uuid4_some name w1 Hname) (or_uuid4_some key w1 Hkey) Hty)
    as (answer & later & Hcalls).
  exists (wallet_settings wallet_type name key innkeeper_settings), answer, later.
  split.
  - apply calls_made_app.
    destruct (create_wallet self (Some name) (Some key) innkeeper_settings
                (Some (innkeeper_id self)) w1) as [[[[t wr] token]|e] w2];
      cbn [snd] in Hcalls |- *.
    + rewrite innkeeper_report_run. cbn. exact Hcalls.
    + exact Hcalls.
  - rewrite !wallet_settings_at. unfold innkeeper_settings.
    repeat split; reflexivity.
Qed.

Lemma create_innkeeper_absent_creates_innkeeper_wallet_witness :
  tenants mt_model.world !! innkeeper_id mt_model.self = None /\
  "traction_innkeeper" <> "" /\ "change-me" <> "" /\
  profile_setting mt_model.self "wallet.type" = Ok (VStr "askar") /\
  exists settings answer later,
    calls_made mt_model.world (snd (create_innkeeper mt_model.self mt_model.world))
    = CreateWallet settings MODE_MANAGED answer :: later /\
    settings !! "wallet.innkeeper" = Some (VBool true) /\
    settings !! "wallet.type" = Some (VStr "askar") /\
    settings !! "wallet.name" = Some (VStr "traction_innkeeper") /\
    settings !! "wallet.key" = Some (VStr "change-me") /\
    settings !! "default_label" = Some (VStr "traction_innkeeper").
Proof.
  assert (H1 : tenants mt_model.world !! innkeeper_id mt_model.self = None)
    by reflexivity.
  assert (H2 : config_wallet_name (innkeeper_wallet (_config mt_model.self)) <> "")
    by discriminate.
  assert (H3 : config_wallet_key (innkeeper_wallet (_config mt_model.self)) <> "")
    by discriminate.
  split; [exact H1|]. split; [exact H2|]. split; [exact H3|]. split; [reflexivity|].
  exact (create_innkeeper_absent_creates_innkeeper_wallet mt_model.self mt_model.world
           (VStr "askar") H1 H2 H3 eq_refl).
Defined.

(** ** The innkeeper's report *)

Definition wallet_exists_record (self : TenantManager) : LogRecord :=
  {| level := INFO;
     message := F "'{wallet_name}' wallet exists."
                  [LStr (config_wallet_name (innkeeper_wallet (_config self)))];
     log_args := [] |}.

Lemma create_innkeeper_existing_run (self : TenantManager) (w : World)
      (tv : TenantValue) (wv : WalletValue) :
  tenants w !! innkeeper_id self = Some (Valid tv) ->
  wallets w !! stored_tenant_wallet_id tv = Some (Valid wv) ->
  create_innkeeper self w =
  match get_token self (loaded_wallet (stored_tenant_wallet_id tv) wv)
                  (set_log (log w ++ [wallet_exists_record self]) w) with
  | (Ok token, w2) =>
    innkeeper_report (innkeeper_wallet (_config self))
                     (loaded_tenant (innkeeper_id self) tv)
                     (loaded_wallet (stored_tenant_wallet_id tv) wv) token w2
  | (Raise e, w2) => (Raise e, w2)
  end.
Proof.
  intros Ht Hw. unfold create_innkeeper. cbv zeta.
  unfold bind at 1. rewrite (innkeeper_lookup_found self w tv wv Ht Hw).
  unfold bind at 1, bind at 1, logger at 1. cbn beta iota. unfold bind at 1.
  fold (wallet_exists_record self).
  destruct (get_token _ _ _) as [[token|e] w2]; reflexivity.
Qed.

Lemma create_innkeeper_printed (self : TenantManager) (w w' : World) :
  create_innkeeper self w = (Ok tt, w') ->
  exists t wr token,
    printed w w' = report_lines (innkeeper_wallet (_config self)) t wr token.
Proof.
  intros Hrun.
  destruct (innkeeper_lookup self w) as [r0 w0] eqn:Hlook.
  destruct (innkeeper_lookup_frame self w w0 r0 Hlook)
    as (_ & _ & Hout0 & _ & found & -> & Hfound).
  assert (Hcases : (exists t wr, found = (Some t, Some wr))
                   \/ (fst found = None \/ snd found = None)).
  { destruct found as [[t|] [wr|]]; cbn; eauto. }
  destruct Hcases as [(t & wr & ->)|Hnot].
  - destruct (Hfound t wr eq_refl) as (tv & wv & Ht & Hw).
    rewrite (create_innkeeper_existing_run self w tv wv Ht Hw), get_token_run in Hrun.
    cbv zeta in Hrun.
    destruct (mt_create_auth_token _ _ _) as [e|token]; [discriminate|].
    rewrite innkeeper_report_run in Hrun. injection Hrun as <-.
    do 3 eexists. apply printed_app. reflexivity.
  - rewrite (create_innkeeper_creating self w w0 found Hlook Hnot) in Hrun.
    destruct (create_wallet _ _ _ _ _ _) as [[[[t wr] token]|e] w2] eqn:Hcw;
      [|discriminate].
    destruct (create_wallet_ok _ _ _ _ _ _ _ _ _ _ Hcw) as (_ & _ & _ & _ & _ & Hout2).
    rewrite innkeeper_report_run in Hrun. injection Hrun as <-.
    exists t, wr, token. apply printed_app. cbn. rewrite Hout2. cbn. now rewrite Hout0.
Qed.

(** X12. What a [create_innkeeper] that returns has printed: six lines, and
    a seventh with the bearer token only when [print_token] is set; unless
    [print_key] is set the key line shows asterisks, not the key. *)
Theorem create_innkeeper_report_hides_secrets (self : TenantManager) (w w' : World) :
  create_innkeeper self w = (Ok tt, w') ->
  let config := innkeeper_wallet (_config self) in
  length (printed w w') = (if print_token config then 7 else 6)%nat /\
  (print_key config = false ->
   printed w w' !! 5%nat = Some (F "wallet.wallet_key = {_key}\n" [LStr "********"])) /\
  (print_token config = false ->
   Forall (fun line => template line <> "Bearer {token}\n") (printed w w')).
Proof.
  intros Hrun. cbv zeta.
  destruct (create_innkeeper_printed self w w' Hrun) as (t & wr & token & ->).
  unfold report_lines. repeat split.
  - destruct (print_token _); reflexivity.
  - intros ->. reflexivity.
  - intros ->. cbn. repeat constructor; discriminate.
Qed.

Lemma create_innkeeper_report_hides_secrets_witness :
  create_innkeeper mt_model.self mt_model.world = (Ok tt, innkeeper_world) /\
  length (printed mt_model.world innkeeper_world) = 7%nat /\
  (false = false ->
   printed mt_model.world innkeeper_world !! 5%nat
   = Some (F "wallet.wallet_key = {_key}\n" [LStr "********"])) /\
  (true = false ->
   Forall (fun line => template line <> "Bearer {token}\n")
          (printed mt_model.world innkeeper_world)).
Proof.
  assert (H : create_innkeeper mt_model.self mt_model.world = (Ok tt, innkeeper_world))
    by (vm_compute; reflexivity).
  split; [exact H|].
  exact (create_innkeeper_report_hides_secrets mt_model.self mt_model.world
           innkeeper_world H).
Defined.

(** ** A tenant whose wallet is gone *)

Lemma innkeeper_lookup_wallet_missing (self : TenantManager) (w : World) (tv : TenantValue) :
  tenants w !! innkeeper_id self = Some (Valid tv) ->
  lookup_fails (stored_tenant_wallet_id tv) w ->
  innkeeper_lookup self w
  = (Ok (Some (loaded_tenant (innkeeper_id self) tv), None),
     set_log (log w ++ [tenant_not_found_record self]) w).
Proof.
  intros Ht Hw. unfold innkeeper_lookup, TenantRecord_retrieve_by_id,
                WalletRecord_retrieve_by_id. py_unfold.
  fold (innkeeper_id self). rewrite Ht. cbn.
  destruct Hw as [Hw|Hw]; rewrite Hw; reflexivity.
Qed.

Definition duplicate_error (i : str) : exn :=
  AcaPyError (mkBaseError StorageDuplicateError i).

(** X11. [create_innkeeper] does not repair an innkeeper tenant whose wallet
    is missing from storage. It takes the creation path: the service creates
    a new wallet, for the settings built on the configured wallet type, and
    issues a token, then saving the tenant under the configured id, which is
    taken, is refused. The call raises the duplicate error, reports nothing,
    keeps the old tenant record, and leaves the new wallet in the store. *)
Theorem create_innkeeper_tenant_without_wallet
        (self : TenantManager) (w : World) (tv : TenantValue) (wallet_type : pyval)
        (wallet_record : WalletRecord) (ws' : wallet_store) (token : str)
        (v : WalletValue) :
  let name := config_wallet_name (innkeeper_wallet (_config self)) in
  let key := config_wallet_key (innkeeper_wallet (_config self)) in
  let mgr := inject_BaseMultitenantManager (_profile self) in
  tenants w !! innkeeper_id self = Some (Valid tv) ->
  lookup_fails (stored_tenant_wallet_id tv) w ->
  name <> "" -> key <> "" ->
  profile_setting self "wallet.type" = Ok wallet_type ->
  mt_create_wallet mgr (wallet_settings wallet_type name key innkeeper_settings) MODE_MANAGED
                   (wallets w) = inr (wallet_record, ws') ->
  mt_create_auth_token mgr wallet_record (wallet_key wallet_record) = inr token ->
  ws' !! wallet_id wallet_record = Some (Valid v) ->
  exists w',
    create_innkeeper self w = (Raise (duplicate_error (innkeeper_id self)), w') /\
    wallets w' = ws' /\ tenants w' = tenants w /\ stdout w' = stdout w.
Proof.
  intros name key mgr Ht Hw Hname Hkey Hty H1 H2 Hv.
  rewrite (create_innkeeper_creating self w _ _
             (innkeeper_lookup_wallet_missing self w tv Ht Hw))
    by (right; reflexivity).
  fold name key. set (w1 := set_log _ _).
  rewrite (create_wallet_after_service self (Some name) (Some key) innkeeper_settings
             (Some (innkeeper_id self)) w1 w1 w1 name key wallet_type wallet_record ws' token
             (or_uuid4_some name w1 Hname) (or_uuid4_some key w1 Hkey) Hty H1 H2).
  cbv zeta.
  unfold create_tenant, try_except, bind at 1, WalletRecord_retrieve_by_id.
  cbn [wallets set_mt_calls set_wallets]. rewrite Hv.
  unfold TenantRecord_save. cbn [tenant_id new_with_id].
  rewrite bool_decide_eq_true_2 by discriminate.
  cbn [tenants set_mt_calls set_wallets set_log w1]. unfold w1. cbn [tenants set_log].
  rewrite Ht. cbn.
  eexists. split; [reflexivity|]. cbn. auto.
Qed.

Definition orphaned_world : World :=
  set_wallets ∅ innkeeper_world.

Lemma create_innkeeper_tenant_without_wallet_witness :
  exists tv wallet_record ws' token v w',
    tenants orphaned_world !! innkeeper_id mt_model.self = Some (Valid tv) /\
    lookup_fails (stored_tenant_wallet_id tv) orphaned_world /\
    profile_setting mt_model.self "wallet.type" = Ok (VStr "askar") /\
    mt_model.create_wallet
      (wallet_settings (VStr "askar") "traction_innkeeper" "change-me" innkeeper_settings)
      MODE_MANAGED (wallets orphaned_world) = inr (wallet_record, ws') /\
    mt_model.create_auth_token wallet_record (wallet_key wallet_record) = inr token /\
    ws' !! wallet_id wallet_record = Some (Valid v) /\
    create_innkeeper mt_model.self orphaned_world
    = (Raise (duplicate_error (innkeeper_id mt_model.self)), w') /\
    wallets w' = ws' /\ tenants w' = tenants orphaned_world /\
    stdout w' = stdout orphaned_world.
Proof.
  pose (tv := {| stored_tenant_name := "traction_innkeeper";
                 stored_tenant_wallet_id := "wallet-of-traction_innkeeper" |}).
  pose (wr := {| wallet_id := "wallet-of-traction_innkeeper";
                 wallet_name := "traction_innkeeper"; wallet_key := "change-me" |}).
  pose (wv := {| stored_wallet_name := "traction_innkeeper";
                 stored_wallet_key := "change-me" |}).
  pose (ws' := (<["wallet-of-traction_innkeeper" := Valid wv]> ∅ : wallet_store)).
  assert (Ht : tenants orphaned_world !! innkeeper_id mt_model.self = Some (Valid tv))
    by (vm_compute; reflexivity).
  assert (Hw : lookup_fails (stored_tenant_wallet_id tv) orphaned_world)
    by (left; vm_compute; reflexivity).
  assert (H1 : mt_create_wallet (inject_BaseMultitenantManager (_profile mt_model.self))
                 (wallet_settings (VStr "askar")
                    (config_wallet_name (innkeeper_wallet (_config mt_model.self)))
                    (config_wallet_key (innkeeper_wallet (_config mt_model.self)))
                    innkeeper_settings)
                 MODE_MANAGED (wallets orphaned_world) = inr (wr, ws'))
    by (vm_compute; reflexivity).
  assert (H2 : mt_create_auth_token (inject_BaseMultitenantManager (_profile mt_model.self))
                 wr (wallet_key wr) = inr "token-for-wallet-of-traction_innkeeper")
    by reflexivity.
  assert (Hv : ws' !! wallet_id wr = Some (Valid wv)) by (vm_compute; reflexivity).
  destruct (create_innkeeper_tenant_without_wallet mt_model.self orphaned_world tv
              (VStr "askar") wr ws'
              "token-for-wallet-of-traction_innkeeper" wv Ht Hw
              ltac:(discriminate) ltac:(discriminate) eq_refl H1 H2 Hv)
    as (w' & Hrun & Hrest).
  exists tv, wr, ws', "token-for-wallet-of-traction_innkeeper", wv, w'.
  split; [exact Ht|]. split; [exact Hw|]. split; [reflexivity|].
  split; [exact H1|]. split; [exact H2|].
  split; [exact Hv|]. split; [exact Hrun|]. exact Hrest.
Defined.

(** * Further properties of the reservation functions *)

Definition info (template' : string) (value : logval) : LogRecord :=
  {| level := INFO; message := F template' [value]; log_args := [] |}.

Definition debug (template' : string) (value : logval) : LogRecord :=
  {| level := DEBUG; message := F template' [value]; log_args := [] |}.

(** X13. What [generate_reservation_token_data] does when it returns: the
    password is the uuid made from one draw of entropy, the salt comes from
    the next draw, the hash is bcrypt's hash of the password under that
    salt, and the expiry is the current time plus the configured minutes.
    It writes four INFO records, the first of which carries the password in
    clear; it stores nothing, prints nothing and calls no service. *)
Theorem generate_reservation_token_data_effects
        (lib : bcrypt.impl) (self : TenantManager) (w w' : World)
        (_pwd : str) (_salt _hash : bytes) (_expiry : Z) :
  generate_reservation_token_data lib self w = (Ok (_pwd, _salt, _hash, _expiry), w') ->
  _pwd = uuid_str (uuid4_of (os_urandom w (drawn w))) /\
  _salt = bcrypt.gensalt lib (os_urandom w (S (drawn w))) /\
  bcrypt.hashpw lib (str_encode _pwd) _salt = Ok _hash /\
  _expiry = (utcnow w + expiry_minutes (reservation (_config self)) * 60000000)%Z /\
  drawn w' = S (S (drawn w)) /\
  log w' = log w ++ [info "_pwd = {_pwd}" (LStr _pwd);
                     info "_salt = {_salt}" (LBytes _salt);
                     info "_hash = {_hash}" (LBytes _hash);
                     info "_expiry = {_expiry}" (LTime _expiry)] /\
  tenants w' = tenants w /\ wallets w' = wallets w /\
  stdout w' = stdout w /\ mt_calls w' = mt_calls w.
Proof.
  unfold generate_reservation_token_data. py_unfold. cbn.
  destruct (bcrypt.hashpw lib _ _) as [h|e] eqn:Hh; cbn; [|discriminate].
  intros [= <- <- <- <- <-]. cbn.
  repeat split; try assumption; try reflexivity.
  rewrite <- !app_assoc. reflexivity.
Qed.

Lemma generate_reservation_token_data_effects_witness :
  exists _pwd _salt _hash _expiry w',
    generate_reservation_token_data bcrypt_model.lib mt_model.self mt_model.world
    = (Ok (_pwd, _salt, _hash, _expiry), w') /\
    _pwd = uuid_str (uuid4_of (os_urandom mt_model.world (drawn mt_model.world))) /\
    _salt = bcrypt.gensalt bcrypt_model.lib
              (os_urandom mt_model.world (S (drawn mt_model.world))) /\
    bcrypt.hashpw bcrypt_model.lib (str_encode _pwd) _salt = Ok _hash /\
    _expiry = (utcnow mt_model.world
               + expiry_minutes (reservation (_config mt_model.self)) * 60000000)%Z /\
    drawn w' = S (S (drawn mt_model.world)) /\
    log w' = log mt_model.world
               ++ [info "_pwd = {_pwd}" (LStr _pwd);
                   info "_salt = {_salt}" (LBytes _salt);
                   info "_hash = {_hash}" (LBytes _hash);
                   info "_expiry = {_expiry}" (LTime _expiry)] /\
    tenants w' = tenants mt_model.world /\ wallets w' = wallets mt_model.world /\
    stdout w' = stdout mt_model.world /\ mt_calls w' = mt_calls mt_model.world.
Proof.
  do 5 eexists. split.
  - vm_compute. reflexivity.
  - eapply (generate_reservation_token_data_effects bcrypt_model.lib mt_model.self
              mt_model.world).
    vm_compute. reflexivity.
Defined.

Ltac finish Hw :=
  cbn; repeat split;
  first [ exact Hw | reflexivity | lia | (intros; discriminate)
        | (repeat constructor; eauto) ].

(** X14. [check_reservation_password] changes nothing but the log, so a
    reservation that verified verifies again. It writes at most two DEBUG
    records (exactly two when it returns), and each carries one boolean,
    the outcome of a comparison: never the password, the salt or a hash. *)
Theorem check_reservation_password_only_logs
        (lib : bcrypt.impl) (self : TenantManager) (reservation_pwd : str)
        (record : ReservationRecord) (w : World) :
  let run := check_reservation_password lib self reservation_pwd record w in
  exists records,
    snd run = set_log (log w ++ records) w /\
    (length records <= 2)%nat /\
    Forall (fun r => level r = DEBUG /\ log_args r = [] /\
                     exists b, fields (message r) = [LBool b]) records /\
    (forall result, fst run = Ok result -> length records = 2%nat).
Proof.
  cbv zeta. unfold check_reservation_password. py_unfold. cbn.
  assert (Hw : w = set_log (log w ++ []) w).
  { rewrite app_nil_r. destruct w; reflexivity. }
  assert (Hlog : forall r1 r2 : LogRecord,
             set_log ((log w ++ [r1]) ++ [r2]) (set_log (log w ++ [r1]) w)
             = set_log (log w ++ [r1; r2]) w).
  { intros r1 r2. unfold set_log. cbn. rewrite <- app_assoc. reflexivity. }
  destruct (py_encode (reservation_token_salt record)) as [salt|];
    [|exists []; finish Hw].
  destruct (bcrypt.hashpw lib (str_encode reservation_pwd) salt) as [token|];
    [|exists []; finish Hw].
  destruct (bcrypt.checkpw lib (str_encode reservation_pwd) token) as [c1|];
    [|exists []; finish Hw].
  cbn.
  destruct (py_encode (reservation_token_hash record)) as [saved|];
    [|eexists [_]; finish Hw].
  destruct (bcrypt.checkpw lib (str_encode reservation_pwd) saved) as [c2|];
    [|eexists [_]; finish Hw].
  cbn.
  destruct (c1 && c2); [destruct (bytes_decode token)|];
    cbn; rewrite Hlog; eexists [_; _]; finish Hw.
Qed.

Definition string_record (salt_s hash_s : str) (t : Z) : ReservationRecord :=
  {| reservation_token_salt := VStr salt_s;
     reservation_token_hash := VStr hash_s;
     expires_at := t |}.

(** X15. A record whose stored salt or stored hash is text that bcrypt does
    not accept makes [check_reservation_password] raise bcrypt's error; it
    does not answer [None]. *)
Theorem check_reservation_password_malformed_record
        (lib : bcrypt.impl) (lib_laws : bcrypt.Laws lib) (self : TenantManager)
        (reservation_pwd salt_s hash_s : str) (t : Z) (e : exn) (w : World) :
  bcrypt.hashpw lib (str_encode reservation_pwd) (str_encode salt_s) = Raise e \/
  (is_Ok (bcrypt.hashpw lib (str_encode reservation_pwd) (str_encode salt_s)) /\
   bcrypt.hashpw lib (str_encode reservation_pwd) (str_encode hash_s) = Raise e) ->
  fst (check_reservation_password lib self reservation_pwd
         (string_record salt_s hash_s t) w) = Raise e.
Proof.
  intros H. unfold string_record. rewrite (check_on_strings lib lib_laws).
  destruct H as [H|[[token H1] H2]].
  - now rewrite H.
  - rewrite H1. unfold bcrypt.checkpw. now rewrite H2.
Qed.

Lemma check_reservation_password_malformed_record_witness :
  (bcrypt.hashpw bcrypt_model.lib (str_encode example_password) (str_encode "not a salt")
   = Raise (ValueError "Invalid salt") \/
   (is_Ok (bcrypt.hashpw bcrypt_model.lib (str_encode example_password)
                         (str_encode "not a salt")) /\
    bcrypt.hashpw bcrypt_model.lib (str_encode example_password) (str_encode "not a hash")
    = Raise (ValueError "Invalid salt"))) /\
  fst (check_reservation_password bcrypt_model.lib mt_model.self example_password
         (string_record "not a salt" "not a hash" 0) mt_model.world)
  = Raise (ValueError "Invalid salt").
Proof.
  assert (H : bcrypt.hashpw bcrypt_model.lib (str_encode example_password)
                            (str_encode "not a salt")
              = Raise (ValueError "Invalid salt")) by (vm_compute; reflexivity).
  split; [left; exact H|].
  exact (check_reservation_password_malformed_record bcrypt_model.lib bcrypt_model.laws
           mt_model.self example_password "not a salt" "not a hash" 0
           (ValueError "Invalid salt") mt_model.world (or_introl H)).
Defined.

(** X16. A record whose salt is a usable string but whose hash field is not
    a string (never set, or kept as bytes) makes the check raise
    [AttributeError] for that field, after the first comparison has been
    logged as true. *)
Theorem check_reservation_password_hash_not_str
        (lib : bcrypt.impl) (lib_laws : bcrypt.Laws lib) (self : TenantManager)
        (reservation_pwd salt_s : str) (hash_field : pyval) (t : Z) (w : World) :
  is_Ok (bcrypt.hashpw lib (str_encode reservation_pwd) (str_encode salt_s)) ->
  (forall s, hash_field <> VStr s) ->
  check_reservation_password lib self reservation_pwd
    {| reservation_token_salt := VStr salt_s;
       reservation_token_hash := hash_field;
       expires_at := t |} w
  = (Raise (AttributeError (type_name hash_field) "encode"),
     set_log
       (log w ++ [debug "bcrypt.checkpw(reservation_pwd.encode('utf-8'), reservation_token) = {checkpw}"
                        (LBool true)]) w).
Proof.
  intros [token Ht] Hns. unfold check_reservation_password. py_unfold. cbn.
  rewrite Ht, (checkpw_own_hash lib lib_laws _ _ _ Ht). cbn.
  destruct hash_field; try reflexivity. exfalso. eapply Hns. reflexivity.
Qed.

Lemma check_reservation_password_hash_not_str_witness :
  is_Ok (bcrypt.hashpw bcrypt_model.lib (str_encode example_password)
                       (str_encode (string_of_list_ascii example_salt))) /\
  (forall s, VNone <> VStr s) /\
  check_reservation_password bcrypt_model.lib mt_model.self example_password
    {| reservation_token_salt := VStr (string_of_list_ascii example_salt);
       reservation_token_hash := VNone;
       expires_at := 0 |} mt_model.world
  = (Raise (AttributeError "NoneType" "encode"),
     set_log
       (log mt_model.world
          ++ [debug "bcrypt.checkpw(reservation_pwd.encode('utf-8'), reservation_token) = {checkpw}"
                    (LBool true)]) mt_model.world).
Proof.
  assert (H1 : is_Ok (bcrypt.hashpw bcrypt_model.lib (str_encode example_password)
                                    (str_encode (string_of_list_ascii example_salt))))
    by (eexists; vm_compute; reflexivity).
  assert (H2 : forall s, VNone <> VStr s) by discriminate.
  split; [exact H1|]. split; [exact H2|].
  exact (check_reservation_password_hash_not_str bcrypt_model.lib bcrypt_model.laws
           mt_model.self example_password (string_of_list_ascii example_salt) VNone 0
           mt_model.world H1 H2).
Defined.

(** X17. When [check_reservation_password] returns a string, both fields of
    the record are strings, the password verifies against the persisted
    hash, and the string returned is the hash of the password under the
    record's salt field (which is the persisted hash only if that hash was
    made with that salt). *)
Theorem check_reservation_password_sound
        (lib : bcrypt.impl) (lib_laws : bcrypt.Laws lib) (self : TenantManager)
        (reservation_pwd token : str) (record : ReservationRecord) (w : World) :
  fst (check_reservation_password lib self reservation_pwd record w) = Ok (Some token) ->
  exists salt_s hash_s reservation_token,
    reservation_token_salt record = VStr salt_s /\
    reservation_token_hash record = VStr hash_s /\
    bcrypt.hashpw lib (str_encode reservation_pwd) (str_encode salt_s)
    = Ok reservation_token /\
    bytes_decode reservation_token = Ok token /\
    bcrypt.checkpw lib (str_encode reservation_pwd) (str_encode hash_s) = Ok true.
Proof.
  destruct record as [salt_v hash_v t].
  destruct salt_v as [| | |salt_s| | |]; try discriminate.
  destruct hash_v as [| | |hash_s| | |].
  all: try (unfold check_reservation_password; py_unfold; cbn;
            destruct (bcrypt.hashpw lib _ _); [|discriminate];
            destruct (bcrypt.checkpw lib _ _); discriminate).
  rewrite (check_on_strings lib lib_laws).
  destruct (bcrypt.hashpw lib _ _) as [tok|] eqn:Ht; [|discriminate].
  destruct (bcrypt.checkpw lib _ _) as [[|]|] eqn:Hc; try discriminate.
  destruct (bytes_decode tok) as [s|] eqn:Hd; [|discriminate].
  intros [= <-]. exists salt_s, hash_s, tok. cbn. auto.
Qed.

Lemma check_reservation_password_sound_witness :
  exists token,
    fst (check_reservation_password bcrypt_model.lib mt_model.self example_password
           example_record mt_model.world) = Ok (Some token) /\
    exists salt_s hash_s reservation_token,
      reservation_token_salt example_record = VStr salt_s /\
      reservation_token_hash example_record = VStr hash_s /\
      bcrypt.hashpw bcrypt_model.lib (str_encode example_password) (str_encode salt_s)
      = Ok reservation_token /\
      bytes_decode reservation_token = Ok token /\
      bcrypt.checkpw bcrypt_model.lib (str_encode example_password) (str_encode hash_s)
      = Ok true.
Proof.
  eexists. split.
  - vm_compute. reflexivity.
  - eapply (check_reservation_password_sound bcrypt_model.lib bcrypt_model.laws
              mt_model.self example_password _ example_record mt_model.world).
    vm_compute. reflexivity.
Defined.

(** * Further properties of the line-of-business routes *)

(** A sandbox to run the routes in: the school Faber (an issuer), the
    employer Acme (not one), a student and an applicant. *)
Module campus.

Definition faber : line_of_business.Lob :=
  {| line_of_business.wallet_id := 0xFABE;
     line_of_business.wallet_key := 0xFABE0;
     line_of_business.cred_def_id := VStr "QpVb...:3:CL:12:degree" |}.

Definition acme : line_of_business.Lob :=
  {| line_of_business.wallet_id := 0xAC3E;
     line_of_business.wallet_key := 0xAC3E0;
     line_of_business.cred_def_id := VNone |}.

Definition alice : lob_routes.Student :=
  {| lob_routes.student_id := VStr "s-001"; lob_routes.name := VStr "Alice Smith";
     lob_routes.date := 1653350400; lob_routes.degree := VStr "Maths";
     lob_routes.age := VInt 24; lob_routes.connection_id := 0xA11CE |}.

Definition not_found : exn := ValueError "not found".

(** Sandbox 1 holds Faber as line of business 1 and Acme as 2. *)
Definition repos : line_of_business.Repositories :=
  {| line_of_business.ApplicantRepository_get_by_id_in_sandbox :=
       fun sandbox_id applicant_id =>
         if ((sandbox_id =? 1) && (applicant_id =? 7))%N
         then Ok {| line_of_business.connection_id := 0xA11CE;
                    line_of_business.alias := VStr "alice" |}
         else Raise not_found;
     line_of_business.LobRepository_get_by_id_with_sandbox :=
       fun sandbox_id lob_id =>
         if ((sandbox_id =? 1) && (lob_id =? 1))%N then Ok faber
         else if ((sandbox_id =? 1) && (lob_id =? 2))%N then Ok acme
         else Raise not_found;
     line_of_business.LobRepository_get_by_name_with_sandbox :=
       fun sandbox_id name =>
         if ((sandbox_id =? 1)%N && String.eqb name "Faber")%bool then Ok faber
         else Raise not_found |}.

Definition students (sandbox_id student_id : N) : Result lob_routes.Student :=
  if ((sandbox_id =? 1) && (student_id =? 3))%N then Ok alice else Raise not_found.

Definition traction (c : lob_routes.traction_call) : Result pyval := Ok VNone.

Definition py : lob_routes.Python :=
  {| lob_routes.str_other := fun _ => "?";
     lob_routes.date_strftime := fun _ _ => "24-05-2022" |}.

End campus.

(** X18. The routes that act for a line of business (list, accept and
    reject credential offers, list credentials, issue a degree) call the
    traction service only for the row that the sandbox-scoped lookup
    returned for the line of business in the path, with that row's wallet id
    and key, and at most once; when that lookup raises, they call nothing
    and fail. *)
Theorem routes_call_traction_for_the_sandboxed_lob
        (repos : line_of_business.Repositories)
        (students : N -> N -> Result lob_routes.Student)
        (traction : lob_routes.traction_call -> Result pyval)
        (py : lob_routes.Python)
        (sandbox_id lob_id cred_issue_id student_id : N) :
  Forall
    (fun run : Result pyval * list lob_routes.traction_call =>
       (length (snd run) <= 1)%nat /\
       match line_of_business.LobRepository_get_by_id_with_sandbox repos sandbox_id lob_id with
       | Ok lob =>
         Forall (fun call =>
                   lob_routes.call_wallet call
                   = (line_of_business.wallet_id lob, line_of_business.wallet_key lob))
                (snd run)
       | Raise _ => snd run = [] /\ exists e, fst run = Raise e
       end)
    [ lob_routes.get_credential_offer repos traction sandbox_id lob_id;
      lob_routes.accept_credential_offer repos traction sandbox_id lob_id cred_issue_id;
      lob_routes.reject_credential_offer repos traction sandbox_id lob_id cred_issue_id;
      lob_routes.get_credentials repos traction sandbox_id lob_id;
      lob_routes.issue_degree repos students traction py sandbox_id lob_id student_id ].
Proof.
  unfold lob_routes.get_credential_offer, lob_routes.accept_credential_offer,
    lob_routes.reject_credential_offer, lob_routes.get_credentials,
    lob_routes.issue_degree.
  destruct (line_of_business.LobRepository_get_by_id_with_sandbox repos sandbox_id lob_id)
    as [lob|e];
    destruct (students sandbox_id student_id) as [student|e'];
    repeat constructor; cbn; eauto.
Qed.

(** X19. What [issue_degree] sends when the student and the line of business
    are found: one credential, from the wallet of the line of business in
    the path, to the student's connection, under the alias [degree], with
    five attributes in this order (student_id, name, date, degree, age)
    whose values are the student's columns, the date formatted as
    day-month-year. The credential definition id is sent as text: a line of
    business that has none yet sends the word [None]. *)
Theorem issue_degree_payload
        (repos : line_of_business.Repositories)
        (students : N -> N -> Result lob_routes.Student)
        (traction : lob_routes.traction_call -> Result pyval)
        (py : lob_routes.Python)
        (sandbox_id lob_id student_id : N)
        (student : lob_routes.Student) (faber : line_of_business.Lob) :
  students sandbox_id student_id = Ok student ->
  line_of_business.LobRepository_get_by_id_with_sandbox repos sandbox_id lob_id = Ok faber ->
  exists cred_def attrs,
    let call := lob_routes.tenant_issue_credential
                  (line_of_business.wallet_id faber) (line_of_business.wallet_key faber)
                  (uuid_str (lob_routes.connection_id student)) "degree" cred_def
                  (VList attrs) in
    lob_routes.issue_degree repos students traction py sandbox_id lob_id student_id
    = (traction call, [call]) /\
    map (line_of_business.item "name") attrs
    = [Some (VStr "student_id"); Some (VStr "name"); Some (VStr "date");
       Some (VStr "degree"); Some (VStr "age")] /\
    map (line_of_business.item "value") attrs
    = [Some (lob_routes.student_id student); Some (lob_routes.name student);
       Some (VStr (lob_routes.date_strftime py (lob_routes.date student) "%d-%m-%Y"));
       Some (lob_routes.degree student); Some (lob_routes.age student)] /\
    (line_of_business.cred_def_id faber = VNone -> cred_def = "None") /\
    (forall s, line_of_business.cred_def_id faber = VStr s -> cred_def = s).
Proof.
  intros Hs Hl. unfold lob_routes.issue_degree. rewrite Hs, Hl.
  do 2 eexists. cbv zeta. split; [reflexivity|].
  split; [reflexivity|]. split; [reflexivity|].
  split; [intros ->; reflexivity|intros s ->; reflexivity].
Qed.

Lemma issue_degree_payload_witness :
  campus.students 1 3 = Ok campus.alice /\
  line_of_business.LobRepository_get_by_id_with_sandbox campus.repos 1 2 = Ok campus.acme /\
  exists cred_def attrs,
    let call := lob_routes.tenant_issue_credential
                  (line_of_business.wallet_id campus.acme)
                  (line_of_business.wallet_key campus.acme)
                  (uuid_str (lob_routes.connection_id campus.alice)) "degree" cred_def
                  (VList attrs) in
    lob_routes.issue_degree campus.repos campus.students campus.traction campus.py 1 2 3
    = (campus.traction call, [call]) /\
    map (line_of_business.item "name") attrs
    = [Some (VStr "student_id"); Some (VStr "name"); Some (VStr "date");
       Some (VStr "degree"); Some (VStr "age")] /\
    map (line_of_business.item "value") attrs
    = [Some (lob_routes.student_id campus.alice); Some (lob_routes.name campus.alice);
       Some (VStr (lob_routes.date_strftime campus.py (lob_routes.date campus.alice)
                                            "%d-%m-%Y"));
       Some (lob_routes.degree campus.alice); Some (lob_routes.age campus.alice)] /\
    (line_of_business.cred_def_id campus.acme = VNone -> cred_def = "None") /\
    (forall s, line_of_business.cred_def_id campus.acme = VStr s -> cred_def = s).
Proof.
  split; [reflexivity|]. split; [reflexivity|].
  exact (issue_degree_payload campus.repos campus.students campus.traction campus.py
           1 2 3 campus.alice campus.acme eq_refl eq_refl).
Defined.

(** X20. [request_degree] sends its request from the wallet of the line of
    business in the path, to the applicant's connection and under the
    applicant's alias, and returns what the traction service answers; the
    line of business named Faber only lends its credential definition. If
    the sandbox has no Faber the route fails and sends nothing, even when
    the applicant and the line of business exist. *)
Theorem request_degree_addressing
        (repos : line_of_business.Repositories)
        (traction : line_of_business.presentation_request -> Result pyval)
        (sandbox_id lob_id applicant_id : N) :
  let run := line_of_business.request_degree repos traction sandbox_id lob_id
                                             applicant_id in
  Forall (fun call =>
            fst run = traction call /\
            exists applicant acme,
              line_of_business.ApplicantRepository_get_by_id_in_sandbox
                repos sandbox_id applicant_id = Ok applicant /\
              line_of_business.LobRepository_get_by_id_with_sandbox repos sandbox_id lob_id
              = Ok acme /\
              line_of_business.request_wallet_id call = line_of_business.wallet_id acme /\
              line_of_business.request_wallet_key call = line_of_business.wallet_key acme /\
              line_of_business.request_connection_id call
              = uuid_str (line_of_business.connection_id applicant) /\
              line_of_business.request_alias call = line_of_business.alias applicant)
         (snd run) /\
  (forall e,
      line_of_business.LobRepository_get_by_name_with_sandbox repos sandbox_id "Faber"
      = Raise e ->
      snd run = [] /\ exists e', fst run = Raise e').
Proof.
  cbv zeta. unfold line_of_business.request_degree.
  destruct (line_of_business.ApplicantRepository_get_by_id_in_sandbox repos _ _)
    as [applicant|e1].
  2: { split; [constructor|]. eauto. }
  destruct (line_of_business.LobRepository_get_by_id_with_sandbox repos _ _) as [acme|e2].
  2: { split; [constructor|]. eauto. }
  destruct (line_of_business.LobRepository_get_by_name_with_sandbox repos _ _)
    as [faber|e3].
  2: { split; [constructor|]. eauto. }
  split; [|intros e [=]].
  constructor; [|constructor]. cbn. split; [reflexivity|]. eauto 10.
Qed.

(** ** Generated names, and a token that is refused *)

Definition absent (x : option str) : Prop := x = None \/ x = Some "".

Lemma or_uuid4_absent (x : option str) (w : World) :
  absent x ->
  or_uuid4 x w
  = (Ok (uuid_str (uuid4_of (os_urandom w (drawn w)))), set_drawn (S (drawn w)) w).
Proof. intros [->| ->]; reflexivity. Qed.

(** X21. A wallet name or key that is missing or empty is replaced by a
    fresh uuid4 string: with both absent, the name comes from one draw of
    entropy and the key from the next, and, the profile having
    ["wallet.type"] configured, these are what the service is asked to
    create the wallet with (the name also as label). *)
Theorem create_wallet_generates_name_and_key
        (self : TenantManager) (wallet_name' wallet_key' : option str)
        (extra_settings : gmap str pyval) (tenant_id' : option str) (w : World)
        (wallet_type : pyval) :
  absent wallet_name' -> absent wallet_key' ->
  profile_setting self "wallet.type" = Ok wallet_type ->
  let n := uuid_str (uuid4_of (os_urandom w (drawn w))) in
  let k := uuid_str (uuid4_of (os_urandom w (S (drawn w)))) in
  exists answer later,
    mt_calls (snd (create_wallet self wallet_name' wallet_key' extra_settings tenant_id' w))
    = mt_calls w
        ++ CreateWallet (wallet_settings wallet_type n k extra_settings) MODE_MANAGED answer
        :: later /\
    wallet_settings wallet_type n k extra_settings !! "default_label" = Some (VStr n) /\
    (extra_settings !! "wallet.name" = None ->
     wallet_settings wallet_type n k extra_settings !! "wallet.name" = Some (VStr n)) /\
    (extra_settings !! "wallet.key" = None ->
     wallet_settings wallet_type n k extra_settings !! "wallet.key" = Some (VStr k)).
Proof.
  intros Hn Hk Hty n k.
  destruct (create_wallet_first_call self wallet_name' wallet_key' extra_settings
              tenant_id' w _ _ n k wallet_type (or_uuid4_absent _ w Hn)
              (or_uuid4_absent _ (set_drawn (S (drawn w)) w) Hk) Hty)
    as (answer & later & Hcalls).
  exists answer, later. split; [exact Hcalls|].
  split; [apply wallet_settings_default_label|].
  split; intros H; rewrite wallet_settings_at; unfold str in *; rewrite H;
    reflexivity.
Qed.

Lemma create_wallet_generates_name_and_key_witness :
  absent None /\ absent (Some "") /\
  profile_setting mt_model.self "wallet.type" = Ok (VStr "askar") /\
  exists answer later,
    mt_calls (snd (create_wallet mt_model.self None (Some "") ∅ None mt_model.world))
    = mt_calls mt_model.world
        ++ CreateWallet
             (wallet_settings (VStr "askar")
                (uuid_str (uuid4_of (os_urandom mt_model.world (drawn mt_model.world))))
                (uuid_str (uuid4_of (os_urandom mt_model.world (S (drawn mt_model.world)))))
                ∅)
             MODE_MANAGED answer
        :: later /\
    wallet_settings (VStr "askar")
      (uuid_str (uuid4_of (os_urandom mt_model.world (drawn mt_model.world))))
      (uuid_str (uuid4_of (os_urandom mt_model.world (S (drawn mt_model.world))))) ∅
      !! "default_label"
    = Some (VStr (uuid_str (uuid4_of (os_urandom mt_model.world (drawn mt_model.world))))) /\
    ((∅ : gmap str pyval) !! "wallet.name" = None ->
     wallet_settings (VStr "askar")
       (uuid_str (uuid4_of (os_urandom mt_model.world (drawn mt_model.world))))
       (uuid_str (uuid4_of (os_urandom mt_model.world (S (drawn mt_model.world))))) ∅
       !! "wallet.name"
     = Some (VStr (uuid_str (uuid4_of (os_urandom mt_model.world (drawn mt_model.world)))))) /\
    ((∅ : gmap str pyval) !! "wallet.key" = None ->
     wallet_settings (VStr "askar")
       (uuid_str (uuid4_of (os_urandom mt_model.world (drawn mt_model.world))))
       (uuid_str (uuid4_of (os_urandom mt_model.world (S (drawn mt_model.world))))) ∅
       !! "wallet.key"
     = Some (VStr (uuid_str (uuid4_of (os_urandom mt_model.world
                                                  (S (drawn mt_model.world))))))).
Proof.
  assert (H1 : absent None) by (left; reflexivity).
  assert (H2 : absent (Some "")) by (right; reflexivity).
  split; [exact H1|]. split; [exact H2|]. split; [reflexivity|].
  exact (create_wallet_generates_name_and_key mt_model.self None (Some "") ∅ None
           mt_model.world (VStr "askar") H1 H2 eq_refl).
Defined.

(** X22. When the service creates the wallet but raises on the token,
    [create_wallet] raises the same exception and stores no tenant, yet the
    wallet store is left as the service made it (the new wallet stays). A
    [BaseError] is logged twice, by [get_token], then by [create_wallet];
    any other exception is logged by neither. *)
Theorem create_wallet_token_refused
        (self : TenantManager) (wallet_name' wallet_key' : option str)
        (extra_settings : gmap str pyval) (tenant_id' : option str)
        (w w1 w2 : World) (n k : str) (wallet_type : pyval)
        (wallet_record : WalletRecord) (ws' : wallet_store) (e : exn) :
  or_uuid4 wallet_name' w = (Ok n, w1) ->
  or_uuid4 wallet_key' w1 = (Ok k, w2) ->
  profile_setting self "wallet.type" = Ok wallet_type ->
  mt_create_wallet (inject_BaseMultitenantManager (_profile self))
                   (wallet_settings wallet_type n k extra_settings) MODE_MANAGED (wallets w2)
  = inr (wallet_record, ws') ->
  mt_create_auth_token (inject_BaseMultitenantManager (_profile self))
                       wallet_record (wallet_key wallet_record) = inl e ->
  exists w',
    create_wallet self wallet_name' wallet_key' extra_settings tenant_id' w
    = (Raise e, w') /\
    wallets w' = ws' /\ tenants w' = tenants w /\
    log w' = if except_BaseError e
             then log w ++ [get_token_error_record wallet_record e;
                            create_wallet_error_record n e]
             else log w.
Proof.
  intros Hn Hk Hty H1 H2.
  destruct (or_uuid4_frame _ _ _ _ Hn) as (_ & Ht1 & _ & Hl1 & _).
  destruct (or_uuid4_frame _ _ _ _ Hk) as (_ & Ht2 & _ & Hl2 & _).
  rewrite (create_wallet_run self wallet_name' wallet_key' extra_settings tenant_id'
             w w1 w2 n k Hn Hk), Hty.
  cbv zeta. rewrite H1, H2.
  eexists. split; [reflexivity|].
  unfold logged_if_BaseError. destruct (except_BaseError e); cbn;
    (split; [reflexivity|]); (split; [congruence|]); congruence.
Qed.

Definition sealed_record : WalletRecord :=
  {| wallet_id := "wallet-of-sealed"; wallet_name := "sealed"; wallet_key := "key" |}.

Definition store_with_sealed : wallet_store :=
  <["wallet-of-sealed" := Valid {| stored_wallet_name := "sealed";
                                   stored_wallet_key := "key" |}]> ∅.

Lemma create_wallet_token_refused_witness :
  profile_setting mt_model.self "wallet.type" = Ok (VStr "askar") /\
  mt_model.create_wallet (wallet_settings (VStr "askar") "sealed" "key" ∅) MODE_MANAGED
                         (wallets mt_model.world) = inr (sealed_record, store_with_sealed) /\
  mt_model.create_auth_token sealed_record (wallet_key sealed_record)
  = inl (AcaPyError sealed_error) /\
  exists w',
    create_wallet mt_model.self (Some "sealed") (Some "key") ∅ None mt_model.world
    = (Raise (AcaPyError sealed_error), w') /\
    wallets w' = store_with_sealed /\ tenants w' = tenants mt_model.world /\
    log w' = if except_BaseError (AcaPyError sealed_error)
             then log mt_model.world
                    ++ [get_token_error_record sealed_record sealed_error;
                        create_wallet_error_record "sealed" sealed_error]
             else log mt_model.world.
Proof.
  assert (H1 : mt_create_wallet (inject_BaseMultitenantManager (_profile mt_model.self))
                 (wallet_settings (VStr "askar") "sealed" "key" ∅) MODE_MANAGED
                 (wallets mt_model.world) = inr (sealed_record, store_with_sealed))
    by (vm_compute; reflexivity).
  assert (H2 : mt_create_auth_token (inject_BaseMultitenantManager (_profile mt_model.self))
                 sealed_record (wallet_key sealed_record) = inl (AcaPyError sealed_error))
    by reflexivity.
  split; [reflexivity|]. split; [exact H1|]. split; [exact H2|].
  exact (create_wallet_token_refused mt_model.self (Some "sealed") (Some "key") ∅ None
           mt_model.world mt_model.world mt_model.world "sealed" "key" (VStr "askar")
           sealed_record store_with_sealed sealed_error eq_refl eq_refl eq_refl H1 H2).
Defined.

(** ** A profile without a wallet type *)

(** X23. Without ["wallet.type"] in the profile's settings, [create_wallet]
    raises [KeyError] at the subscript: the service is not called, nothing
    is logged (the handler catches [BaseError] only), nothing is printed,
    and no wallet or tenant is stored. *)
Theorem create_wallet_wallet_type_missing
        (self : TenantManager) (wallet_name' wallet_key' : option str)
        (extra_settings : gmap str pyval) (tenant_id' : option str) (w : World) :
  context_settings (_profile self) !! "wallet.type" = None ->
  let run := create_wallet self wallet_name' wallet_key' extra_settings tenant_id' w in
  fst run = Raise (KeyError "wallet.type") /\
  mt_calls (snd run) = mt_calls w /\ log (snd run) = log w /\
  stdout (snd run) = stdout w /\
  wallets (snd run) = wallets w /\ tenants (snd run) = tenants w.
Proof.
  intros Hnone. cbv zeta.
  destruct (or_uuid4_returns wallet_name' w) as (n & w1 & Hn).
  destruct (or_uuid4_returns wallet_key' w1) as (k & w2 & Hk).
  destruct (or_uuid4_frame _ _ _ _ Hn) as (_ & Ht1 & Hw1 & Hl1 & Ho1 & Hc1).
  destruct (or_uuid4_frame _ _ _ _ Hk) as (_ & Ht2 & Hw2 & Hl2 & Ho2 & Hc2).
  rewrite (create_wallet_no_wallet_type self wallet_name' wallet_key' extra_settings
             tenant_id' w w1 w2 n k Hn Hk Hnone).
  cbn [fst snd]. repeat split; congruence.
Qed.

Definition self_without_wallet_type : TenantManager :=
  {| _profile :=
       {| context_settings := ∅;
          inject_BaseMultitenantManager := mt_model.mgr |};
     _config := mt_model.config |}.

Lemma create_wallet_wallet_type_missing_witness :
  context_settings (_profile self_without_wallet_type) !! "wallet.type" = None /\
  fst (create_wallet self_without_wallet_type (Some "alice") (Some "key") ∅ None
         mt_model.world)
  = Raise (KeyError "wallet.type") /\
  mt_calls (snd (create_wallet self_without_wallet_type (Some "alice") (Some "key") ∅ None
                   mt_model.world)) = mt_calls mt_model.world /\
  log (snd (create_wallet self_without_wallet_type (Some "alice") (Some "key") ∅ None
              mt_model.world)) = log mt_model.world /\
  stdout (snd (create_wallet self_without_wallet_type (Some "alice") (Some "key") ∅ None
                 mt_model.world)) = stdout mt_model.world /\
  wallets (snd (create_wallet self_without_wallet_type (Some "alice") (Some "key") ∅ None
                  mt_model.world)) = wallets mt_model.world /\
  tenants (snd (create_wallet self_without_wallet_type (Some "alice") (Some "key") ∅ None
                  mt_model.world)) = tenants mt_model.world.
Proof.
  split; [reflexivity|].
  exact (create_wallet_wallet_type_missing self_without_wallet_type (Some "alice")
           (Some "key") ∅ None mt_model.world eq_refl).
Defined.
